(** * BPL_TEST2_Batch_fmpy_explore.py: the simulation-continuity core

    A shallow embedding of the parts of [BPL_TEST2_Batch_fmpy_explore.py]
    that keep parameters, state values and the continuation cursor
    consistent across repeated runs of the FMU:
    - the derivation of initial-value names for the states
      ([stateDictInitial], lines 134-151);
    - [par()] and [init()] (lines 343-370);
    - [model_get()] (lines 373-399);
    - [simu()] with its helper [extract_variables] (lines 472-563).

    Python values are modelled as follows.  Numbers are rationals [Q]
    (the script only stores, compares and adds them).  Python's [None]
    is [option]'s [None].  A Python [dict] is an association list in
    insertion order whose update replaces the value in place or appends
    ([pydict]).  A raised exception is the [Raise] branch of [res].
    Strings are [String.string]; negative indexing and slicing are
    written out on the list of characters.  Printed diagnostics are
    appended to a log.  The FMU ([simulate_fmu]) is a function from the
    call's arguments to an optional result: [None] is a raised error. *)

From Stdlib Require Import String Ascii List Bool Arith QArith Lia.
Import ListNotations.
Open Scope nat_scope.
Open Scope string_scope.

(* ------------------------------------------------------------------ *)
(** ** Python run-time: exceptions, dicts, strings *)

Inductive pyexn :=
| NameError | KeyError | ValueError | TypeError | IndexError
| UnboundLocalError | ZeroDivisionError | FMUError.

Inductive res (A : Type) :=
| Ok (a : A)
| Raise (e : pyexn).
Arguments Ok {A} a.
Arguments Raise {A} e.

Definition bind {A B} (m : res A) (f : A -> res B) : res B :=
  match m with Ok a => f a | Raise e => Raise e end.

Notation "'let*' x := m 'in' k" := (bind m (fun x => k))
  (at level 200, x name, m at level 100, k at level 200).

Module PyDict.

Definition t (V : Type) := list (string * V).

Section Ops.
Context {V : Type}.

(** [d[k]] read by [get]; [Fixpoint] over the items *)
Fixpoint get (d : t V) (k : string) : option V :=
  match d with
  | [] => None
  | (k', v) :: d' => if String.eqb k k' then Some v else get d' k
  end.

(** [d[k] = v]: in place when the key exists, appended otherwise *)
Fixpoint set (d : t V) (k : string) (v : V) : t V :=
  match d with
  | [] => [(k, v)]
  | (k', v') :: d' =>
      if String.eqb k k' then (k', v) :: d' else (k', v') :: set d' k v
  end.

Definition keys (d : t V) : list string := map fst d.

Definition mem (k : string) (d : t V) : bool :=
  existsb (String.eqb k) (keys d).

(** [d[k]] as an expression: [KeyError] when absent *)
Definition index (d : t V) (k : string) : res V :=
  match get d k with Some v => Ok v | None => Raise KeyError end.

(** [del d[k]] *)
Definition del (d : t V) (k : string) : res (t V) :=
  if mem k d then Ok (filter (fun kv => negb (String.eqb k (fst kv))) d)
  else Raise KeyError.

(** [d.update(e)]: one assignment per item of [e], in order *)
Definition update (d e : t V) : t V :=
  fold_left (fun acc kv => set acc (fst kv) (snd kv)) e d.

(** [dict(l)] for a list of pairs *)
Definition of_list (l : list (string * V)) : t V := update [] l.
End Ops.

Definition values {V} (d : t V) : list V := map snd d.

End PyDict.

Abbreviation pydict := PyDict.t.

Definition ascii_eqb (a b : ascii) : bool := Ascii.eqb a b.

(** [s[-n]] for [n >= 1] *)
Definition py_neg_get (s : string) (n : nat) : res ascii :=
  match nth_error (rev (list_ascii_of_string s)) (n - 1) with
  | Some c => Ok c
  | None => Raise IndexError
  end.

(** [s[:-n]] for [n >= 1] *)
Definition py_drop_last (s : string) (n : nat) : string :=
  string_of_list_ascii (rev (skipn n (rev (list_ascii_of_string s)))).

(** [s[-n:]] for [n >= 1] *)
Definition py_take_last (s : string) (n : nat) : string :=
  string_of_list_ascii (rev (firstn n (rev (list_ascii_of_string s)))).

(** [sub in s] for strings *)
Fixpoint py_in (sub s : string) : bool :=
  String.prefix sub s ||
  match s with
  | EmptyString => false
  | String _ s' => py_in sub s'
  end.

(* ------------------------------------------------------------------ *)
(** ** Initial-value names of the states (lines 134-151) *)

(** The body of the loop for one key: a name, or the [break] of the
    [else] branch (line 149-151). *)
Inductive derived :=
| DName (n : string)
| DBreak.

Definition lbr : ascii := "["%char.
Definition rbr : ascii := "]"%char.

Definition derive_initial (key : string) : res derived :=
  let* c1 := py_neg_get key 1 in
  if negb (ascii_eqb c1 rbr) then
    if String.eqb (py_take_last key 3) "I.y" then
      Ok (DName (py_drop_last key 10 ++ "I_start"))
    else if String.eqb (py_take_last key 3) "D.x" then
      Ok (DName (py_drop_last key 10 ++ "D_start"))
    else Ok (DName (key ++ "_start"))
  else
    let* c3 := py_neg_get key 3 in
    if ascii_eqb c3 lbr then
      Ok (DName (py_drop_last key 3 ++ "_start" ++ py_take_last key 3))
    else
    let* c4 := py_neg_get key 4 in
    if ascii_eqb c4 lbr then
      Ok (DName (py_drop_last key 4 ++ "_start" ++ py_take_last key 4))
    else
    let* c5 := py_neg_get key 5 in
    if ascii_eqb c5 lbr then
      Ok (DName (py_drop_last key 5 ++ "_start" ++ py_take_last key 5))
    else Ok DBreak.

Definition msg_too_many_states := "The state vector has more than 1000 states".

(** The loop [for key in stateDict.keys(): ...] building
    [stateDictInitial]; returns the dict, the printed lines and whether
    the loop raised. *)
Fixpoint build_initial_loop (ks : list string) (acc : pydict string)
    (log : list string) : pydict string * list string * res unit :=
  match ks with
  | [] => (acc, log, Ok tt)
  | key :: ks' =>
      match derive_initial key with
      | Ok (DName n) => build_initial_loop ks' (PyDict.set acc key n) log
      | Ok DBreak => (acc, app log [msg_too_many_states], Ok tt)
      | Raise e => (acc, log, Raise e)
      end
  end.

Definition build_stateDictInitial (state_keys : list string) :=
  build_initial_loop state_keys [] [].

(** [stateDictInitialLoc[value] = value] for every derived name *)
Definition build_stateDictInitialLoc (sdi : pydict string) : pydict string :=
  fold_left (fun acc v => PyDict.set acc v v) (PyDict.values sdi) [].

(* ------------------------------------------------------------------ *)
(** ** The model catalog and [model_get()] (lines 373-399) *)

(** The [start] attribute of a model variable: a number, a text that
    [float()] rejects, or absent. *)
Inductive pystart :=
| StNum (q : Q)
| StStr (s : string)
| StNone.

(** [float(start)] *)
Definition py_float (s : pystart) : res Q :=
  match s with
  | StNum q => Ok q
  | StStr _ => Raise ValueError
  | StNone => Raise TypeError
  end.

Record mvar := MVar {
  vname : string;
  causality : string;
  variability : string;
  vstart : pystart;
  vderivative : option string
}.

(** A simulation result: one column of samples per recorded name,
    including ["time"]. *)
Abbreviation simres := (pydict (list Q)).

(** [sim_res[name]] on the structured array: [ValueError] for a field
    that was not recorded *)
Definition simres_field (r : simres) (name : string) : res (list Q) :=
  match PyDict.get r name with Some ts => Ok ts | None => Raise ValueError end.

(** [ts[-1]] *)
Definition py_last (ts : list Q) : res Q :=
  match rev ts with [] => Raise IndexError | t :: _ => Ok t end.

(** [ts[0]] *)
Definition py_first (ts : list Q) : res Q :=
  match ts with [] => Raise IndexError | t :: _ => Ok t end.

(** [try: body except NameError: value = None] *)
Definition catch_name_error (r : res (option Q)) : res (option Q) :=
  match r with Raise NameError => Ok None | _ => r end.

(** [try: body except (AttributeError, ValueError): value = None] *)
Definition catch_value_error (r : res (option Q)) : res (option Q) :=
  match r with Raise ValueError => Ok None | _ => r end.

(** A global that may still be unassigned: reading it raises [NameError] *)
Definition read_global {A} (g : option A) : res A :=
  match g with Some a => Ok a | None => Raise NameError end.

(** The body of the [if par_var[k].name == parLoc:] branch *)
Definition model_get_var (sim_res : option simres)
    (start_values : option (pydict (option Q))) (v : mvar) : res (option Q) :=
  catch_name_error
    (if String.eqb (causality v) "local" && String.eqb (variability v) "constant" then
       let* q := py_float (vstart v) in Ok (Some q)
     else if String.eqb (causality v) "parameter" then
       let* q := py_float (vstart v) in Ok (Some q)
     else if String.eqb (causality v) "calculatedParameter" then
       let* r := read_global sim_res in
       let* ts := simres_field r (vname v) in
       let* q := py_first ts in Ok (Some q)
     else
       let* sv := read_global start_values in
       if PyDict.mem (vname v) sv then PyDict.index sv (vname v)
       else if String.eqb (variability v) "continuous" then
         catch_value_error
           (let* r := read_global sim_res in
            let* ts := simres_field r (vname v) in
            let* q := py_last ts in Ok (Some q))
       else Ok None).

(** The loop over [model_description.modelVariables]; [value] stays
    unassigned (the [None] of the accumulator) when no variable matches,
    and [return value] then raises [UnboundLocalError]. *)
Fixpoint model_get_loop (cat : list mvar) (sim_res : option simres)
    (start_values : option (pydict (option Q))) (parLoc : string)
    (value : option (option Q)) : res (option (option Q)) :=
  match cat with
  | [] => Ok value
  | v :: cat' =>
      if String.eqb (vname v) parLoc then
        let* x := model_get_var sim_res start_values v in
        model_get_loop cat' sim_res start_values parLoc (Some x)
      else model_get_loop cat' sim_res start_values parLoc value
  end.

(** [model_get(parLoc)]; the messages it prints are not modelled. *)
Definition model_get (cat : list mvar) (sim_res : option simres)
    (start_values : option (pydict (option Q))) (parLoc : string) : res (option Q) :=
  let* value := model_get_loop cat sim_res start_values parLoc None in
  match value with
  | Some x => Ok x
  | None => Raise UnboundLocalError
  end.

(* ------------------------------------------------------------------ *)
(** ** Configuration and session state *)

(** An entry of [parCheck], e.g. ["parDict['Y'] > 0"]: the text, the key
    it reads and whether the comparison with [0] is strict. *)
Record check := Check_ {
  ctext : string;
  ckey : string;
  cstrict : bool
}.

(** [eval(requirement)] against the store *)
Definition eval_check (pd : pydict Q) (c : check) : res bool :=
  let* v := PyDict.index pd (ckey c) in
  Ok (if cstrict c then negb (Qle_bool v 0) else Qle_bool 0 v).

(** The globals fixed at load time *)
Record config := Config {
  catalog : list mvar;
  parLocation : pydict string;
  parCheck : list check;
  stateDictInitial : pydict string;
  stateDictInitialLoc : pydict string;
  key_variables : list string;
  ncp : Q
}.

(** The arguments of one [simulate_fmu] call *)
Record invocation := Invocation {
  inv_start : Q;
  inv_stop : Q;
  inv_interval : Q;
  inv_start_values : pydict (option Q);
  inv_output : list string
}.

(** The globals that the functions update; [calls] records the
    [simulate_fmu] calls made and [log] the printed lines. *)
Record session := Session {
  parDict : pydict Q;
  stateDict : pydict (option Q);
  prevFinalTime : Q;
  sim_res : option simres;
  start_values : option (pydict (option Q));
  calls : list invocation;
  log : list string
}.

Definition with_parDict (st : session) (p : pydict Q) : session :=
  Session p (stateDict st) (prevFinalTime st) (sim_res st) (start_values st) (calls st) (log st).
Definition with_stateDict (st : session) (s : pydict (option Q)) : session :=
  Session (parDict st) s (prevFinalTime st) (sim_res st) (start_values st) (calls st) (log st).
Definition with_prevFinalTime (st : session) (t : Q) : session :=
  Session (parDict st) (stateDict st) t (sim_res st) (start_values st) (calls st) (log st).
Definition with_sim_res (st : session) (r : simres) : session :=
  Session (parDict st) (stateDict st) (prevFinalTime st) (Some r) (start_values st) (calls st) (log st).
Definition with_start_values (st : session) (sv : pydict (option Q)) : session :=
  Session (parDict st) (stateDict st) (prevFinalTime st) (sim_res st) (Some sv) (calls st) (log st).
Definition add_call (st : session) (i : invocation) : session :=
  Session (parDict st) (stateDict st) (prevFinalTime st) (sim_res st) (start_values st) (i :: calls st) (log st).
Definition py_print (st : session) (lines : list string) : session :=
  Session (parDict st) (stateDict st) (prevFinalTime st) (sim_res st) (start_values st) (calls st) (app (log st) lines).

(* ------------------------------------------------------------------ *)
(** ** [par()] and [init()] (lines 343-370) *)

Definition msg_not_parameter (key : string) :=
  "Error: " ++ key ++ " - seems not an accessible parameter - check the spelling".
Definition msg_not_initial (key : string) :=
  "Error: " ++ key ++ " - seems not an initial value, use par() instead - check the spelling".
Definition msg_requirements := "Error - the following requirements do not hold:".

(** [parErrors = [requirement for requirement in parCheck
                  if not(eval(requirement))]] *)
Fixpoint failing_checks (pd : pydict Q) (cs : list check) : res (list check) :=
  match cs with
  | [] => Ok []
  | c :: cs' =>
      let* b := eval_check pd c in
      let* rest := failing_checks pd cs' in
      Ok (if b then rest else c :: rest)
  end.

(** The staging loop shared by [par()] and [init()]: a key passing
    [accept] is copied into [x_temp], any other key prints [reject]. *)
Fixpoint stage (accept : string -> bool) (reject : string -> string)
    (x : pydict Q) (ks : list string) (tmp : pydict Q) (lines : list string)
    : pydict Q * list string :=
  match ks with
  | [] => (tmp, lines)
  | key :: ks' =>
      if accept key then
        match PyDict.get x key with
        | Some v => stage accept reject x ks' (PyDict.set tmp key v) lines
        | None => stage accept reject x ks' tmp lines
        end
      else stage accept reject x ks' tmp (app lines [reject key])
  end.

(** [par with keyword arguments x_kwarg] on the global [parDict] and [parCheck]: the update
    is committed before the requirements are evaluated. *)
Definition par (cfg : config) (st : session) (x_kwarg : pydict Q) : session * res unit :=
  let '(x_temp, lines) :=
    stage (fun key => PyDict.mem key (parDict st)) msg_not_parameter
          x_kwarg (PyDict.keys x_kwarg) [] [] in
  let st1 := py_print (with_parDict st (PyDict.update (parDict st) x_temp)) lines in
  match failing_checks (parDict st1) (parCheck cfg) with
  | Raise e => (st1, Raise e)
  | Ok [] => (st1, Ok tt)
  | Ok errs => (py_print st1 (msg_requirements :: map ctext errs), Ok tt)
  end.

(** [init with keyword arguments x_kwarg] on the global [parDict] *)
Definition init (st : session) (x_kwarg : pydict Q) : session :=
  let '(x_init, lines) :=
    stage (fun key => py_in "_start" key) msg_not_initial
          x_kwarg (PyDict.keys x_kwarg) [] [] in
  py_print (with_parDict st (PyDict.update (parDict st) x_init)) lines.

(* ------------------------------------------------------------------ *)
(** ** Output selection: [extract_variables] and the [output] argument *)

Definition is_local (v : mvar) : bool := String.eqb (causality v) "local".

(** [extract_variables(diagrams)] (lines 482-489) *)
Definition extract_variables (cat : list mvar) (diagrams : list string) : list string :=
  let variables := filter is_local cat in
  flat_map (fun command =>
              map vname (filter (fun v => py_in (vname v) command) variables))
           diagrams.

(** [list(set(...))]: the order Python gives is unspecified; the
    members are what matters. *)
Definition py_set_list (l : list string) : list string := nodup string_dec l.

(** [output = list(set(extract_variables(diagrams)
                       + list(stateDict.keys()) + key_variables))] *)
Definition sim_output (cfg : config) (diagrams : list string) (st : session) : list string :=
  py_set_list (app (extract_variables (catalog cfg) diagrams)
                   (app (PyDict.keys (stateDict st)) (key_variables cfg))).

(* ------------------------------------------------------------------ *)
(** ** [simu()] (lines 472-563) *)

(** [{f(k)[0]: f(k)[1] for k in ks}] where evaluating [f(k)] may raise *)
Fixpoint dict_comp {V} (f : string -> res (string * V)) (ks : list string)
    (acc : pydict V) : res (pydict V) :=
  match ks with
  | [] => Ok acc
  | k :: ks' =>
      let* kv := f k in dict_comp f ks' (PyDict.set acc (fst kv) (snd kv))
  end.

(** [[f(k) for k in ks]] where evaluating [f(k)] may raise *)
Fixpoint list_comp {A} (f : string -> res A) (ks : list string) : res (list A) :=
  match ks with
  | [] => Ok []
  | k :: ks' => let* a := f k in let* l := list_comp f ks' in Ok (a :: l)
  end.

Definition fresh_mode (mode : string) : bool :=
  existsb (String.eqb mode) ["Initial"; "initial"; "init"].
Definition cont_mode (mode : string) : bool :=
  existsb (String.eqb mode) ["Continued"; "continued"; "cont"].

Definition msg_first_init := "Error: Simulation is first done with default mode = init'".
Definition msg_mode := "Error: Simulation mode not correct".
Definition msg_no_sim := "Error: No simulation done".

(** [for key in stateDict.keys(): stateDict[key] = model_get(key)];
    an exception leaves the entries already written. *)
Fixpoint feedback (cat : list mvar) (ks : list string) (st : session) : session * res unit :=
  match ks with
  | [] => (st, Ok tt)
  | key :: ks' =>
      match model_get cat (sim_res st) (start_values st) key with
      | Raise e => (st, Raise e)
      | Ok v => feedback cat ks' (with_stateDict st (PyDict.set (stateDict st) key v))
      end
  end.

(** The [if simulationDone:] block (lines 550-560).  Drawing the
    diagrams (lines 553-554) only plots and is not modelled. *)
Definition after_run (cfg : config) (st : session) (r : simres) : session * res unit :=
  let st1 := with_sim_res st r in
  let '(st2, fr) := feedback (catalog cfg) (PyDict.keys (stateDict st1)) st1 in
  match fr with
  | Raise e => (st2, Raise e)
  | Ok _ =>
      match bind (simres_field r "time") py_last with
      | Raise e => (st2, Raise e)
      | Ok t => (with_prevFinalTime st2 t, Ok tt)
      end
  end.

(** Assign [start_values], evaluate the remaining arguments of
    [simulate_fmu], call it, and on return run the post-run block. *)
Definition run_fmu (cfg : config) (fmu : invocation -> option simres)
    (diagrams : list string) (simulationTime t0 t1 : Q)
    (sv : pydict (option Q)) (st : session) : session * res unit :=
  let st1 := with_start_values st sv in
  if Qeq_bool (ncp cfg) 0 then (st1, Raise ZeroDivisionError) else
  let inv := Invocation t0 t1 (simulationTime / ncp cfg) sv
                        (sim_output cfg diagrams st1) in
  let st2 := add_call st1 inv in
  match fmu inv with
  | None => (st2, Raise FMUError)
  | Some r => after_run cfg st2 r
  end.

(** [start_values = {parLocation[k]:parDict[k] for k in parDict.keys()}] *)
Definition fresh_start_values (cfg : config) (st : session) : res (pydict (option Q)) :=
  dict_comp (fun k => let* l := PyDict.index (parLocation cfg) k in
                      let* v := PyDict.index (parDict st) k in Ok (l, Some v))
            (PyDict.keys (parDict st)) [].

(** The loop of lines 520-523 building [parDictRed] and [parLocationRed] *)
Fixpoint reduce (cfg : config) (ks : list string) (pdr : pydict Q) (plr : pydict string)
    : res (pydict Q * pydict string) :=
  match ks with
  | [] => Ok (pdr, plr)
  | key :: ks' =>
      let* l := PyDict.index (parLocation cfg) key in
      if existsb (String.eqb l) (PyDict.values (stateDictInitial cfg)) then
        let* pdr' := PyDict.del pdr key in
        let* plr' := PyDict.del plr key in
        reduce cfg ks' pdr' plr'
      else reduce cfg ks' pdr plr
  end.

(** Lines 518-530: the [start_values] of a continued run *)
Definition cont_start_values (cfg : config) (st : session) : res (pydict (option Q)) :=
  let* red := reduce cfg (PyDict.keys (parDict st)) (parDict st) (parLocation cfg) in
  let parDictRed := fst red in
  let parLocationRed := snd red in
  let parLocationMod := PyDict.of_list (app parLocationRed (stateDictInitialLoc cfg)) in
  let* stitems := list_comp (fun key =>
                    let* n := PyDict.index (stateDictInitial cfg) key in
                    let* v := PyDict.index (stateDict st) key in Ok (n, v))
                  (PyDict.keys (stateDict st)) in
  let parDictMod := PyDict.of_list
                      (app (map (fun kv => (fst kv, Some (snd kv))) parDictRed) stitems) in
  dict_comp (fun k => let* l := PyDict.index parLocationMod k in
                      let* v := PyDict.index parDictMod k in Ok (l, v))
            (PyDict.keys parDictMod) [].

(** [simu(simulationTime, mode, options, diagrams)] *)
Definition simu (cfg : config) (fmu : invocation -> option simres)
    (diagrams : list string) (simulationTime : Q) (mode : string)
    (st : session) : session * res unit :=
  if fresh_mode mode then
    match fresh_start_values cfg st with
    | Raise e => (st, Raise e)
    | Ok sv => run_fmu cfg fmu diagrams simulationTime 0 simulationTime sv st
    end
  else if cont_mode mode then
    if Qeq_bool (prevFinalTime st) 0 then (py_print st [msg_first_init; msg_no_sim], Ok tt)
    else
      match cont_start_values cfg st with
      | Raise e => (st, Raise e)
      | Ok sv => run_fmu cfg fmu diagrams simulationTime (prevFinalTime st)
                 (prevFinalTime st + simulationTime) sv st
      end
  else (py_print st [msg_mode; msg_no_sim], Ok tt).

(* ------------------------------------------------------------------ *)
(** ** The configuration of the script at load time (lines 111-190) *)

(** [stateDict = {variable.derivative.name: None for variable in
    model_description.modelVariables if variable.derivative is not None}] *)
Definition initial_stateDict (cat : list mvar) : pydict (option Q) :=
  PyDict.of_list (flat_map (fun v => match vderivative v with
                                     | Some n => [(n, None)]
                                     | None => []
                                     end) cat).

(** A catalog with the variables the script refers to *)
Definition batch_catalog : list mvar := [
  MVar "bioreactor.V_start" "parameter" "fixed" (StNum 1) None;
  MVar "bioreactor.m_start[1]" "parameter" "fixed" (StNum 1) None;
  MVar "bioreactor.m_start[2]" "parameter" "fixed" (StNum 10) None;
  MVar "bioreactor.culture.Y" "parameter" "fixed" (StNum (1#2)) None;
  MVar "bioreactor.culture.qSmax" "parameter" "fixed" (StNum 1) None;
  MVar "bioreactor.culture.Ks" "parameter" "fixed" (StNum (1#10)) None;
  MVar "bioreactor.m[1]" "local" "continuous" StNone None;
  MVar "bioreactor.m[2]" "local" "continuous" StNone None;
  MVar "der(bioreactor.m[1])" "local" "continuous" StNone (Some "bioreactor.m[1]");
  MVar "der(bioreactor.m[2])" "local" "continuous" StNone (Some "bioreactor.m[2]");
  MVar "bioreactor.V" "local" "continuous" StNone None;
  MVar "bioreactor.c[1]" "local" "continuous" StNone None;
  MVar "bioreactor.c[2]" "local" "continuous" StNone None;
  MVar "bioreactor.culture.mu" "local" "continuous" StNone None;
  MVar "liquidphase.mw[1]" "local" "constant" (StNum 24) None
].

Definition batch_parDict : pydict Q :=
  [("V_start", 1%Q); ("VX_start", 1%Q); ("VS_start", 10%Q);
   ("Y", 1#2); ("qSmax", 1%Q); ("Ks", 1#10)].

Definition batch_parLocation : pydict string :=
  [("V_start", "bioreactor.V_start"); ("VX_start", "bioreactor.m_start[1]");
   ("VS_start", "bioreactor.m_start[2]");
   ("Y", "bioreactor.culture.Y"); ("qSmax", "bioreactor.culture.qSmax");
   ("Ks", "bioreactor.culture.Ks");
   ("mu", "bioreactor.culture.mu"); ("V", "bioreactor.V");
   ("VX", "bioreactor.m[1]"); ("VS", "bioreactor.m[2]")].

Definition batch_parCheck : list check :=
  [Check_ "parDict['Y'] > 0" "Y" true;
   Check_ "parDict['qSmax'] > 0" "qSmax" true;
   Check_ "parDict['Ks'] > 0" "Ks" true;
   Check_ "parDict['V_start'] > 0" "V_start" true;
   Check_ "parDict['VX_start'] >= 0" "VX_start" false;
   Check_ "parDict['VS_start'] >= 0" "VS_start" false].

Definition batch_stateDictInitial : pydict string :=
  fst (fst (build_stateDictInitial (PyDict.keys (initial_stateDict batch_catalog)))).

Definition batch_config : config :=
  Config batch_catalog batch_parLocation batch_parCheck batch_stateDictInitial
         (build_stateDictInitialLoc batch_stateDictInitial)
         ["bioreactor.culture.mu"; "bioreactor.V"; "bioreactor.m[1]"; "bioreactor.m[2]"]
         500.

Definition batch_session : session :=
  Session batch_parDict (initial_stateDict batch_catalog) 0 None None [] [].

Definition batch_diagrams : list string :=
  ["ax1.plot(sim_res['time'],sim_res['bioreactor.c[1]'],color='r',linestyle=linetype)";
   "ax1.plot(sim_res['time'],sim_res['bioreactor.c[2]'],color='b',linestyle=linetype)";
   "ax2.plot(sim_res['time'],sim_res['bioreactor.culture.mu'],color='r',linestyle=linetype)"].

(** A stand-in for the FMU: every recorded variable goes from [1] to
    [1 + stop], the time axis from start to stop. *)
Definition demo_fmu (i : invocation) : option simres :=
  Some (("time", [inv_start i; inv_stop i])
        :: map (fun n => (n, [1; 1 + inv_stop i]%Q)) (inv_output i)).

(** A stand-in for a failing FMU *)
Definition failing_fmu (i : invocation) : option simres := None.

(* ------------------------------------------------------------------ *)
(** ** Printed output of [disp()] and [describe()] *)

(** A value handed to [print]: [print(a, b, ...)] writes its arguments
    separated by blanks; a printed line is the list of its arguments. *)
Inductive pyval :=
| PStr (s : string)
| PNum (q : Q)
| PNone.

Abbreviation pline := (list pyval).

(** [np.round(value, decimals)]: numpy's rounding [np_round] of a float;
    [None] has no [__round__] and raises [TypeError]. *)
Definition round_value (np_round : Q -> nat -> Q) (value : option Q) (decimals : nat)
    : res pyval :=
  match value with
  | Some q => Ok (PNum (np_round q decimals))
  | None => Raise TypeError
  end.

(* ------------------------------------------------------------------ *)
(** ** [disp()] (lines 416-456) *)

(** [seen.add(v)]: [v] is added when absent; the call returns [None] *)
Definition set_add (seen : list string) (v : string) : list string :=
  if existsb (String.eqb v) seen then seen else app seen [v].

(** The comprehension of [dict_reverser]:
    [{v: k for k, v in d.items() if v not in seen or seen.add(v)}];
    [or] evaluates [seen.add(v)] (whose value [None] is false) only when
    [v not in seen] is false. *)
Fixpoint dict_reverser_loop (items : pydict string) (seen : list string)
    (acc : pydict string) : pydict string * list string :=
  match items with
  | [] => (acc, seen)
  | (k, v) :: items' =>
      if negb (existsb (String.eqb v) seen) then
        dict_reverser_loop items' seen (PyDict.set acc v k)
      else dict_reverser_loop items' (set_add seen v) acc
  end.

(** [dict_reverser(d)] with [seen = set()] *)
Definition dict_reverser (d : pydict string) : pydict string :=
  fst (dict_reverser_loop d [] []).

(** A local read before it was ever assigned: [UnboundLocalError] *)
Definition read_local {A} (x : option A) : res A :=
  match x with Some a => Ok a | None => Raise UnboundLocalError end.

(** [for Location in [parLocation[k] for k in parDict.keys()]:
       if name in Location: <row> else: k = k+1];
    an exception leaves the lines already printed. *)
Fixpoint disp_loop (row : string -> res pline) (name : string) (locs : list string)
    (k : nat) (acc : list pline) : list pline * res nat :=
  match locs with
  | [] => (acc, Ok k)
  | Location :: locs' =>
      if py_in name Location then
        match row Location with
        | Ok l => disp_loop row name locs' k (app acc [l])
        | Raise e => (acc, Raise e)
        end
      else disp_loop row name locs' (S k) acc
  end.

(** [for parName in parDict.keys(): if name in parName: <row>] *)
Fixpoint disp_fallback (row : string -> res pline) (name : string) (ks : list string)
    (acc : list pline) : list pline * res unit :=
  match ks with
  | [] => (acc, Ok tt)
  | parName :: ks' =>
      if py_in name parName then
        match row parName with
        | Ok l => disp_fallback row name ks' (app acc [l])
        | Raise e => (acc, Raise e)
        end
      else disp_fallback row name ks' acc
  end.

Fixpoint py_last_opt {A} (l : list A) : option A :=
  match l with [] => None | [x] => Some x | _ :: l' => py_last_opt l' end.

(** One mode of [disp]: the location list, the first loop, and the
    second loop when [k == len(parLocation)]; [row2] gets the loop
    variable [Location] as the first loop left it. *)
Definition disp_mode (row1 : string -> res pline) (row2 : option string -> string -> res pline)
    (cfg : config) (st : session) (name : string) : list pline * res unit :=
  match list_comp (PyDict.index (parLocation cfg)) (PyDict.keys (parDict st)) with
  | Raise e => ([], Raise e)
  | Ok locs =>
      let '(acc, r) := disp_loop row1 name locs 0 [] in
      match r with
      | Raise e => (acc, Raise e)
      | Ok k =>
          if Nat.eqb k (length (PyDict.keys (parLocation cfg))) then
            disp_fallback (row2 (py_last_opt locs)) name (PyDict.keys (parDict st)) acc
          else (acc, Ok tt)
      end
  end.

(** [disp(name, decimals, mode)].  The test
    [type(model_get(Location)) != np.bool_] calls [model_get] and holds:
    [model_get] gives a float or [None], never an [np.bool_]; so only
    the first branch of each such [if] is taken.  The two [if mode in]
    tests are disjoint. *)
Definition disp (np_round : Q -> nat -> Q) (cfg : config) (st : session)
    (name : string) (decimals : nat) (mode : string) : list pline * res unit :=
  let mget := model_get (catalog cfg) (sim_res st) (start_values st) in
  let rv := dict_reverser (parLocation cfg) in
  if String.eqb mode "short" then
    disp_mode
      (fun Location =>
         let* _ := mget Location in
         let* key := PyDict.index rv Location in
         let* r := (let* v := mget Location in round_value np_round v decimals) in
         Ok [PStr key; PStr ":"; r])
      (fun last parName =>
         let* Location := read_local last in
         let* _ := mget Location in
         let* r := (let* l := PyDict.index (parLocation cfg) parName in
                    let* v := mget l in round_value np_round v decimals) in
         Ok [PStr parName; PStr ":"; r])
      cfg st name
  else if String.eqb mode "long" || String.eqb mode "location" then
    disp_mode
      (fun Location =>
         let* _ := mget Location in
         let* key := PyDict.index rv Location in
         let* r := (let* v := mget Location in round_value np_round v decimals) in
         Ok [PStr Location; PStr ":"; PStr key; PStr ":"; r])
      (fun last parName =>
         let* Location := read_local last in
         let* _ := mget Location in
         let* l := PyDict.index (parLocation cfg) parName in
         let* key := PyDict.index rv Location in
         let* r := (let* l' := PyDict.index (parLocation cfg) parName in
                    let* v := mget l' in round_value np_round v decimals) in
         Ok [PStr l; PStr ":"; PStr key; PStr ":"; PStr parName; PStr ":"; r])
      cfg st name
  else ([], Ok tt).

(** The keys of [parDict] whose location contains [name]: the rows of
    [disp]'s first loop *)
Definition disp_selected (pl : pydict string) (name : string) (ks : list string) : list string :=
  filter (fun k => match PyDict.get pl k with Some L => py_in name L | None => false end) ks.

(* ------------------------------------------------------------------ *)
(** ** [model_get_variable_description()], [model_get_variable_unit()]
       and [describe_general()] (lines 401-414, 602-637) *)

(** A model variable with the two attributes these functions read
    ([unit] is [vunit]: [unit] is Rocq's unit type) *)
Record mvar_doc := MVarDoc {
  mvariable : mvar;
  description : option string;
  vunit : option string
}.

(** [value[0]] *)
Definition py_index0 {A} (l : list A) : res A :=
  match l with [] => Raise IndexError | x :: _ => Ok x end.

(** [[x.description for x in par_var if parLoc in x.name][0]] *)
Definition model_get_variable_description (cat : list mvar_doc) (parLoc : string)
    : res (option string) :=
  py_index0 (map description (filter (fun x => py_in parLoc (vname (mvariable x))) cat)).

(** [[x.unit for x in par_var if parLoc in x.name][0]] *)
Definition model_get_variable_unit (cat : list mvar_doc) (parLoc : string)
    : res (option string) :=
  py_index0 (map vunit (filter (fun x => py_in parLoc (vname (mvariable x))) cat)).

(** [try: unit = ... except FMUException: unit = ''] *)
Definition catch_fmu_exception (r : res (option string)) : res (option string) :=
  match r with Raise FMUError => Ok (Some "") | _ => r end.

(** A [str] attribute that may be [None], as [print] shows it *)
Definition py_opt_str (s : option string) : pyval :=
  match s with Some t => PStr t | None => PNone end.

(** The lookups and the line printed by one branch of [describe_general];
    [type(value) != np.bool_] holds as in [disp]. *)
Definition describe_lookup (np_round : Q -> nat -> Q) (cat : list mvar_doc)
    (st : session) (loc : string) (decimals : nat) : res pline :=
  let* description := model_get_variable_description cat loc in
  let* value := model_get (map mvariable cat) (sim_res st) (start_values st) loc in
  let* unit := catch_fmu_exception (model_get_variable_unit cat loc) in
  match unit with
  | Some "" =>
      let* r := round_value np_round value decimals in
      Ok [py_opt_str description; PStr ":"; r]
  | _ =>
      let* r := round_value np_round value decimals in
      Ok [py_opt_str description; PStr ":"; r; PStr "["; py_opt_str unit; PStr "]"]
  end.

(** [describe_general(name, decimals)] with the global [parLocation] *)
Definition describe_general (np_round : Q -> nat -> Q) (cat : list mvar_doc)
    (parLoc : pydict string) (st : session) (name : string) (decimals : nat)
    : list pline * res unit :=
  if String.eqb name "time" then ([[PStr "Time"; PStr "["; PStr "h"; PStr "]"]], Ok tt)
  else
    let r := if PyDict.mem name parLoc then
               let* loc := PyDict.index parLoc name in describe_lookup np_round cat st loc decimals
             else describe_lookup np_round cat st name decimals in
    match r with
    | Ok l => ([l], Ok tt)
    | Raise e => ([], Raise e)
    end.

(* ------------------------------------------------------------------ *)
(** ** [describe_parts()] (lines 566-594) *)

(** [variable_name[i]] *)
Definition py_get (s : string) (i : nat) : res ascii :=
  match String.get i s with Some c => Ok c | None => Raise IndexError end.

(** The [while not finished:] loop of [model_component]; each round
    increments [i] or finishes, so [String.length variable_name] rounds
    ([fuel]) are never exhausted. *)
Fixpoint model_component_loop (fuel : nat) (variable_name : string) (i : nat) (name : string)
    : res string :=
  match fuel with
  | O => Ok name
  | S fuel' =>
      let* c := py_get variable_name i in
      let name' := (name ++ String c "")%string in
      if Nat.eqb i (String.length variable_name - 1) then Ok name'
      else
        let* c' := py_get variable_name (i + 1) in
        if ascii_eqb c' "."%char || ascii_eqb c' "("%char then Ok name'
        else model_component_loop fuel' variable_name (i + 1) name'
  end.

Definition component_dropped : list string :=
  ["der"; "temp_1"; "temp_2"; "temp_3"; "temp_4"; "temp_5"; "temp_6"; "temp_7"].

(** [model_component(variable_name)] *)
Definition model_component (variable_name : string) : res string :=
  let* name :=
    (let* c0 := py_get variable_name 0 in
     if negb (ascii_eqb c0 "_"%char) then
       model_component_loop (String.length variable_name) variable_name 0 ""
     else Ok "") in
  Ok (if existsb (String.eqb name) component_dropped then "" else name).

Definition parts_ignored : list string :=
  [""; "BPL"; "Customer"; "today[1]"; "today[2]"; "today[3]"; "temp_2"; "temp_3"].

(** [for i in range(len(variables)): ... component_list.append(component)] *)
Fixpoint describe_parts_loop (variables : list string) (component_list : list string)
    : list string * res unit :=
  match variables with
  | [] => (component_list, Ok tt)
  | v :: vs =>
      match model_component v with
      | Raise e => (component_list, Raise e)
      | Ok component =>
          if negb (existsb (String.eqb component) component_list) &&
             negb (existsb (String.eqb component) parts_ignored)
          then describe_parts_loop vs (app component_list [component])
          else describe_parts_loop vs component_list
      end
  end.

(** [describe_parts(component_list)]: the list the caller passes (the
    global [component_list_minimum] for [describe('parts')]) is extended
    in place; printing its sorted copy is not modelled. *)
Definition describe_parts (cat : list mvar) (component_list : list string)
    : list string * res unit :=
  describe_parts_loop (map vname cat) component_list.

(* ------------------------------------------------------------------ *)
(** ** Predicates used in the statements *)

(** A key "ends with" a suffix *)
Definition ends_with (suf key : string) : Prop := exists p, key = (p ++ suf)%string.

Definition is_digit (c : ascii) : bool :=
  Nat.leb 48 (nat_of_ascii c) && Nat.leb (nat_of_ascii c) 57.
Definition is_digits (ds : string) : bool := forallb is_digit (list_ascii_of_string ds).

(** A state key the derivation supports: its last character is not
    [']'], or it ends in a bracket suffix of one to three digits. *)
Definition supported_key (key : string) : Prop :=
  (exists p c, key = (p ++ String c "")%string /\ c <> "]"%char) \/
  (exists p ds, key = (p ++ "[" ++ ds ++ "]")%string /\ is_digits ds = true /\
                1 <= String.length ds <= 3).

(** A key with a bracket suffix of four or more digits *)
Definition too_long_key (key : string) : Prop :=
  exists p ds, key = (p ++ "[" ++ ds ++ "]")%string /\ is_digits ds = true /\
               4 <= String.length ds.

(** A parameter whose location is one of the derived initial-value
    names: the loop of lines 520-523 removes it from [parDictRed] *)
Definition superseded (cfg : config) (k : string) : bool :=
  match PyDict.get (parLocation cfg) k with
  | Some l => existsb (String.eqb l) (PyDict.values (stateDictInitial cfg))
  | None => false
  end.

(* ================================================================== *)
(** * Lemmas on the Python run-time *)

Module PyDictFacts.
Import PyDict.

Section Facts.
Context {V : Type}.
Implicit Types (d e l : t V) (k : string) (v : V).

Lemma get_set d k v k' :
  get (set d k v) k' = if String.eqb k' k then Some v else get d k'.
Proof.
  induction d as [|[k1 v1] d IH]; simpl.
  - destruct (String.eqb k' k); reflexivity.
  - destruct (String.eqb k k1) eqn:E1; simpl.
    + apply String.eqb_eq in E1; subst k1.
      destruct (String.eqb k' k); reflexivity.
    + rewrite IH. destruct (String.eqb k' k1) eqn:E2; [|reflexivity].
      apply String.eqb_eq in E2; subst k1.
      destruct (String.eqb k' k) eqn:E3; [|reflexivity].
      apply String.eqb_eq in E3; subst k. rewrite String.eqb_refl in E1.
      discriminate.
Qed.

Lemma keys_set d k v k' :
  In k' (keys (set d k v)) <-> k' = k \/ In k' (keys d).
Proof.
  induction d as [|[k1 v1] d IH]; simpl.
  - intuition congruence.
  - destruct (String.eqb k k1) eqn:E1; simpl.
    + apply String.eqb_eq in E1; subst k1. intuition congruence.
    + rewrite IH. intuition congruence.
Qed.

Lemma NoDup_set d k v : NoDup (keys d) -> NoDup (keys (set d k v)).
Proof.
  induction d as [|[k1 v1] d IH]; simpl; intros H.
  - constructor; [intros []|constructor].
  - inversion H as [|? ? Hn Hd]; subst.
    destruct (String.eqb k k1) eqn:E1; simpl.
    + constructor; assumption.
    + constructor; [|apply IH; assumption].
      rewrite keys_set. intros [->|Hin]; [|contradiction].
      rewrite String.eqb_refl in E1; discriminate.
Qed.

Lemma get_In d k v : get d k = Some v -> In (k, v) d.
Proof.
  induction d as [|[k1 v1] d IH]; simpl; [discriminate|].
  destruct (String.eqb k k1) eqn:E.
  - apply String.eqb_eq in E; subst. intros [= ->]. left; reflexivity.
  - intros H; right; apply IH, H.
Qed.

Lemma get_None d k : ~ In k (keys d) -> get d k = None.
Proof.
  induction d as [|[k1 v1] d IH]; simpl; [reflexivity|].
  intros H. destruct (String.eqb k k1) eqn:E.
  - apply String.eqb_eq in E; subst. exfalso; apply H; left; reflexivity.
  - apply IH; tauto.
Qed.

Lemma get_Some_keys d k : get d k <> None <-> In k (keys d).
Proof.
  split.
  - intros H. destruct (get d k) as [v|] eqn:E; [|contradiction].
    apply get_In in E. apply in_map_iff. exists (k, v); auto.
  - intros H E. induction d as [|[k1 v1] d IH]; simpl in *; [contradiction|].
    destruct (String.eqb k k1) eqn:E1; [discriminate|].
    destruct H as [->|H]; [rewrite String.eqb_refl in E1; discriminate|].
    apply IH; assumption.
Qed.

Lemma In_get d k v : NoDup (keys d) -> In (k, v) d -> get d k = Some v.
Proof.
  induction d as [|[k1 v1] d IH]; simpl; [intros _ []|].
  intros Hnd Hin. inversion Hnd as [|? ? Hn Hd]; subst.
  destruct Hin as [[= -> ->]|Hin].
  - rewrite String.eqb_refl; reflexivity.
  - destruct (String.eqb k k1) eqn:E.
    + apply String.eqb_eq in E; subst. exfalso; apply Hn.
      apply in_map_iff; exists (k1, v); auto.
    + apply IH; assumption.
Qed.

Lemma mem_In k d : mem k d = true <-> In k (keys d).
Proof.
  unfold mem. rewrite existsb_exists. split.
  - intros [x [Hx E]]. apply String.eqb_eq in E; subst; assumption.
  - intros H. exists k; split; [assumption|apply String.eqb_refl].
Qed.

Lemma get_app l1 l2 k :
  get (l1 ++ l2)%list k = match get l1 k with Some v => Some v | None => get l2 k end.
Proof.
  induction l1 as [|[k1 v1] l1 IH]; simpl; [reflexivity|].
  destruct (String.eqb k k1); [reflexivity|apply IH].
Qed.

(** [d.update(e)] reads, at each key, the last item of [e] *)
Lemma get_update d e k :
  get (update d e) k =
  match get (rev e) k with Some v => Some v | None => get d k end.
Proof.
  revert d. induction e as [|[k1 v1] e IH]; intros d; simpl; [reflexivity|].
  unfold update in *. simpl. rewrite IH, get_app. simpl.
  rewrite get_set.
  destruct (get (rev e) k); [reflexivity|].
  destruct (String.eqb k k1); reflexivity.
Qed.

Lemma keys_update d e k :
  In k (keys (update d e)) <-> In k (keys d) \/ In k (keys e).
Proof.
  revert d. induction e as [|[k1 v1] e IH]; intros d; simpl; [tauto|].
  unfold update in *. simpl. rewrite IH, keys_set. intuition congruence.
Qed.

Lemma keys_rev l : keys (rev l) = rev (keys l).
Proof. unfold keys. apply map_rev. Qed.

Lemma get_rev_NoDup l k : NoDup (keys l) -> get (rev l) k = get l k.
Proof.
  intros Hnd. destruct (get l k) as [v|] eqn:E.
  - apply In_get.
    + rewrite keys_rev. apply NoDup_rev, Hnd.
    + apply in_rev. rewrite rev_involutive. apply get_In, E.
  - apply get_None. rewrite keys_rev, <- in_rev.
    rewrite <- get_Some_keys. congruence.
Qed.

(** [get] of the last occurrence, when all occurrences agree *)
Lemma get_rev_unique l k v :
  In (k, v) l -> (forall v', In (k, v') l -> v' = v) -> get (rev l) k = Some v.
Proof.
  intros Hin Hu. destruct (get (rev l) k) as [w|] eqn:E.
  - f_equal. apply Hu. apply in_rev, get_In, E.
  - exfalso. assert (Hk : In k (keys (rev l))).
    { apply in_map_iff. exists (k, v). split; [reflexivity|]. apply in_rev.
      rewrite rev_involutive; assumption. }
    apply get_Some_keys in Hk. contradiction.
Qed.

Lemma get_rev_In l k v : get (rev l) k = Some v -> In (k, v) l.
Proof. intros H. apply in_rev, get_In, H. Qed.

Lemma NoDup_keys_filter (f : string * V -> bool) l :
  NoDup (keys l) -> NoDup (keys (filter f l)).
Proof.
  induction l as [|[k1 v1] l IH]; simpl; intros Hnd; [constructor|].
  inversion Hnd as [|? ? Hn Hd]; subst.
  destruct (f (k1, v1)); simpl; [|apply IH; assumption].
  constructor; [|apply IH; assumption].
  intros Hin. apply Hn. apply in_map_iff in Hin as [[k2 v2] [Heq Hin]].
  simpl in Heq; subst k1. apply filter_In in Hin as [Hin _].
  apply in_map_iff. exists (k2, v2); auto.
Qed.

Lemma get_values d k v : get d k = Some v -> In v (values d).
Proof.
  intros H. apply get_In in H. apply in_map_iff. exists (k, v); auto.
Qed.
End Facts.

End PyDictFacts.

Module PyStrFacts.

Lemma append_assoc (a b c : string) : (a ++ (b ++ c))%string = ((a ++ b) ++ c)%string.
Proof. induction a as [|x a IH]; simpl; [reflexivity|]. rewrite IH; reflexivity. Qed.

Lemma length_append (a b : string) :
  String.length (a ++ b) = String.length a + String.length b.
Proof. induction a as [|x a IH]; simpl; [reflexivity|]. rewrite IH; reflexivity. Qed.

Lemma chars_app (a b : string) :
  list_ascii_of_string (a ++ b) = (list_ascii_of_string a ++ list_ascii_of_string b)%list.
Proof. induction a as [|c a IH]; simpl; [reflexivity|]. rewrite IH; reflexivity. Qed.

Lemma string_of_chars_app (l1 l2 : list ascii) :
  string_of_list_ascii (l1 ++ l2) = (string_of_list_ascii l1 ++ string_of_list_ascii l2)%string.
Proof. induction l1 as [|c l1 IH]; simpl; [reflexivity|]. rewrite IH; reflexivity. Qed.

Lemma chars_length (s : string) : List.length (list_ascii_of_string s) = String.length s.
Proof. induction s as [|c s IH]; simpl; [reflexivity|]. rewrite IH; reflexivity. Qed.

Lemma rev_chars_app (a b : string) :
  rev (list_ascii_of_string (a ++ b)) =
  (rev (list_ascii_of_string b) ++ rev (list_ascii_of_string a))%list.
Proof. rewrite chars_app. apply rev_app_distr. Qed.

Lemma py_drop_take_last (s : string) (n : nat) :
  (py_drop_last s n ++ py_take_last s n)%string = s.
Proof.
  unfold py_drop_last, py_take_last. rewrite <- string_of_chars_app.
  rewrite <- rev_app_distr, firstn_skipn, rev_involutive.
  apply string_of_list_ascii_of_string.
Qed.

Lemma py_drop_last_app (s t : string) :
  py_drop_last (s ++ t) (String.length t) = s.
Proof.
  unfold py_drop_last. rewrite rev_chars_app.
  rewrite <- chars_length, <- length_rev, skipn_app, skipn_all, Nat.sub_diag.
  simpl. rewrite rev_involutive. apply string_of_list_ascii_of_string.
Qed.

Lemma py_take_last_app (s t : string) (n : nat) :
  n <= String.length t -> py_take_last (s ++ t) n = py_take_last t n.
Proof.
  intros Hn. unfold py_take_last. rewrite rev_chars_app, firstn_app.
  rewrite length_rev, chars_length.
  replace (n - String.length t) with 0 by lia. simpl. rewrite app_nil_r. reflexivity.
Qed.

Lemma py_neg_get_app (s t : string) (n : nat) :
  1 <= n <= String.length t -> py_neg_get (s ++ t) n = py_neg_get t n.
Proof.
  intros Hn. unfold py_neg_get. rewrite rev_chars_app, nth_error_app1; [reflexivity|].
  rewrite length_rev, chars_length. lia.
Qed.

Lemma rev_chars_bracket (p ds : string) :
  rev (list_ascii_of_string (p ++ "[" ++ ds ++ "]")) =
  ("]"%char :: rev (list_ascii_of_string ds) ++ "["%char :: rev (list_ascii_of_string p))%list.
Proof.
  rewrite !chars_app, !rev_app_distr. simpl. rewrite <- !app_assoc. simpl.
  reflexivity.
Qed.

End PyStrFacts.

Lemma digit_not_lbr (c : ascii) : is_digit c = true -> ascii_eqb c lbr = false.
Proof.
  intros H. unfold ascii_eqb. destruct (Ascii.eqb_spec c lbr) as [->|]; [discriminate|reflexivity].
Qed.

Lemma take_last_neq (suf key : string) :
  ~ ends_with suf key -> String.eqb (py_take_last key 3) suf = false.
Proof.
  intros H. destruct (String.eqb_spec (py_take_last key 3) suf) as [E|]; [|reflexivity].
  exfalso. apply H. exists (py_drop_last key 3). rewrite <- E.
  symmetry; apply PyStrFacts.py_drop_take_last.
Qed.

Lemma derive_ident_suffix (q r suf : string) (c : ascii) :
  String.length r = 7 -> String.length suf = 3 ->
  py_neg_get suf 1 = Ok c -> ascii_eqb c rbr = false ->
  derive_initial (q ++ r ++ suf) =
  if String.eqb (py_take_last suf 3) "I.y" then
    Ok (DName (q ++ "I_start"))
  else if String.eqb (py_take_last suf 3) "D.x" then
    Ok (DName (q ++ "D_start"))
  else Ok (DName (q ++ r ++ suf ++ "_start")).
Proof.
  intros Hr Hs Hc Hb. unfold derive_initial.
  rewrite PyStrFacts.append_assoc, PyStrFacts.py_neg_get_app by lia. rewrite Hc. simpl.
  rewrite Hb. simpl.
  rewrite PyStrFacts.py_take_last_app by lia.
  replace 10 with (String.length (r ++ suf)) by (rewrite PyStrFacts.length_append; lia).
  rewrite <- PyStrFacts.append_assoc, PyStrFacts.py_drop_last_app, !PyStrFacts.append_assoc.
  reflexivity.
Qed.

Lemma derive_other (p : string) (c : ascii) :
  c <> "]"%char -> ~ ends_with "I.y" (p ++ String c "") -> ~ ends_with "D.x" (p ++ String c "") ->
  derive_initial (p ++ String c "") = Ok (DName (p ++ String c "" ++ "_start")).
Proof.
  intros Hc HI HD. unfold derive_initial.
  rewrite PyStrFacts.py_neg_get_app by (simpl; lia). simpl.
  unfold ascii_eqb. destruct (Ascii.eqb_spec c rbr) as [E|]; [contradiction|]. simpl.
  rewrite (take_last_neq _ _ HI), (take_last_neq _ _ HD).
  rewrite <- PyStrFacts.append_assoc. reflexivity.
Qed.

Lemma derive_bracket_short (p ds : string) :
  is_digits ds = true -> 1 <= String.length ds <= 3 ->
  derive_initial (p ++ "[" ++ ds ++ "]") = Ok (DName (p ++ "_start" ++ "[" ++ ds ++ "]")).
Proof.
  intros Hd Hl. unfold derive_initial, py_neg_get, py_take_last, py_drop_last.
  rewrite !PyStrFacts.rev_chars_bracket.
  destruct ds as [|a [|b [|c [|e ds]]]]; simpl in Hl; try lia;
    unfold is_digits in Hd; simpl in Hd;
    repeat match type of Hd with
           | _ && _ = true => apply andb_prop in Hd as [?Hx Hd]
           end;
    simpl; rewrite ?digit_not_lbr by assumption; simpl;
    rewrite rev_involutive, string_of_list_ascii_of_string; reflexivity.
Qed.

Lemma derive_bracket_long (p ds : string) :
  is_digits ds = true -> 4 <= String.length ds ->
  derive_initial (p ++ "[" ++ ds ++ "]") = Ok DBreak.
Proof.
  intros Hd Hl. unfold derive_initial, py_neg_get. rewrite !PyStrFacts.rev_chars_bracket.
  unfold is_digits in Hd. rewrite forallb_forall in Hd.
  assert (Hlen : 4 <= List.length (rev (list_ascii_of_string ds)))
    by (rewrite length_rev, PyStrFacts.chars_length; exact Hl).
  assert (Hnth : forall i, i < 4 -> exists c,
            nth_error (rev (list_ascii_of_string ds) ++ "["%char :: rev (list_ascii_of_string p))%list i
            = Some c /\ ascii_eqb c lbr = false).
  { intros i Hi. rewrite nth_error_app1 by lia.
    destruct (nth_error (rev (list_ascii_of_string ds)) i) as [c|] eqn:E.
    - exists c. split; [reflexivity|]. apply digit_not_lbr, Hd.
      apply in_rev, (nth_error_In _ _ E).
    - apply nth_error_None in E. lia. }
  simpl.
  destruct (Hnth 1 ltac:(lia)) as [c3 [E3 N3]]. simpl in E3. rewrite E3. simpl. rewrite N3.
  destruct (Hnth 2 ltac:(lia)) as [c4 [E4 N4]]. simpl in E4. rewrite E4. simpl. rewrite N4.
  destruct (Hnth 3 ltac:(lia)) as [c5 [E5 N5]]. simpl in E5. rewrite E5. simpl. rewrite N5.
  reflexivity.
Qed.

Lemma derive_ends (p suf : string) (c : ascii) :
  String.length suf = 3 -> py_neg_get suf 1 = Ok c -> ascii_eqb c rbr = false ->
  derive_initial (p ++ suf) =
  if String.eqb (py_take_last suf 3) "I.y" then
    Ok (DName (py_drop_last (p ++ suf) 10 ++ "I_start"))
  else if String.eqb (py_take_last suf 3) "D.x" then
    Ok (DName (py_drop_last (p ++ suf) 10 ++ "D_start"))
  else Ok (DName ((p ++ suf) ++ "_start")).
Proof.
  intros Hs Hc Hb. unfold derive_initial at 1.
  rewrite PyStrFacts.py_neg_get_app by lia. rewrite Hc. simpl. rewrite Hb. simpl.
  rewrite PyStrFacts.py_take_last_app by lia. reflexivity.
Qed.

Lemma supported_derives (key : string) :
  supported_key key -> exists n, derive_initial key = Ok (DName n).
Proof.
  intros [(p & c & -> & Hc) | (p & ds & -> & Hd & Hl)].
  - unfold derive_initial. rewrite PyStrFacts.py_neg_get_app by (simpl; lia). simpl.
    unfold ascii_eqb. destruct (Ascii.eqb_spec c rbr) as [E|]; [contradiction|]. simpl.
    destruct (String.eqb _ "I.y"); [eexists; reflexivity|].
    destruct (String.eqb _ "D.x"); eexists; reflexivity.
  - eexists. apply derive_bracket_short; assumption.
Qed.

Lemma build_initial_loop_names (ks : list string) (acc : pydict string) (lg : list string) :
  Forall (fun k => exists n, derive_initial k = Ok (DName n)) ks ->
  snd (build_initial_loop ks acc lg) = Ok tt /\ snd (fst (build_initial_loop ks acc lg)) = lg /\
  forall k,
    (In k ks -> exists n, derive_initial k = Ok (DName n) /\
                          PyDict.get (fst (fst (build_initial_loop ks acc lg))) k = Some n) /\
    (~ In k ks -> PyDict.get (fst (fst (build_initial_loop ks acc lg))) k = PyDict.get acc k).
Proof.
  revert acc. induction ks as [|key ks IH]; intros acc Hall; simpl.
  - split; [reflexivity|split; [reflexivity|]]. intros k; split; [intros []|reflexivity].
  - inversion Hall as [|? ? [n Hn] Hrest]; subst. rewrite Hn.
    destruct (IH (PyDict.set acc key n) Hrest) as (H1 & H2 & H3).
    split; [assumption|split; [assumption|]]. intros k; split.
    + intros Hk. destruct (in_dec string_dec k ks) as [Hin|Hout].
      * apply (proj1 (H3 k)), Hin.
      * destruct Hk as [<-|]; [|contradiction]. exists n. split; [assumption|].
        rewrite (proj2 (H3 key) Hout), PyDictFacts.get_set, String.eqb_refl. reflexivity.
    + intros Hk. rewrite (proj2 (H3 k) (fun H => Hk (or_intror H))), PyDictFacts.get_set.
      destruct (String.eqb_spec k key) as [->|]; [exfalso; apply Hk; left; reflexivity|].
      reflexivity.
Qed.

Lemma build_initial_loop_app (pre rest : list string) (acc : pydict string) (lg : list string) :
  Forall (fun k => exists n, derive_initial k = Ok (DName n)) pre ->
  build_initial_loop (pre ++ rest) acc lg =
  build_initial_loop rest (fst (fst (build_initial_loop pre acc lg))) lg.
Proof.
  revert acc. induction pre as [|key pre IH]; intros acc Hall; simpl; [reflexivity|].
  inversion Hall as [|? ? [n Hn] Hrest]; subst. rewrite Hn. apply IH, Hrest.
Qed.

(* ================================================================== *)
(** * Initial-value names *)

(** C3: for every key of a supported shape the derived initial-value
    name follows the rule table: a key ending in [I.y] (resp. [D.x])
    loses its last 10 characters and gains [I_start] (resp. [D_start]);
    a key ending in a bracket suffix of 1 to 3 digits gets [_start]
    inserted before the suffix; any other key (last character not
    [']'], not ending in [I.y] or [D.x]) gets [_start] appended; and
    [bioreactor.m[1]] derives to [bioreactor.m_start[1]]. *)
Theorem derive_initial_rule_table :
  (forall key, ends_with "I.y" key ->
     derive_initial key = Ok (DName (py_drop_last key 10 ++ "I_start"))) /\
  (forall q r, String.length r = 7 ->
     derive_initial (q ++ r ++ "I.y") = Ok (DName (q ++ "I_start"))) /\
  (forall key, ends_with "D.x" key ->
     derive_initial key = Ok (DName (py_drop_last key 10 ++ "D_start"))) /\
  (forall q r, String.length r = 7 ->
     derive_initial (q ++ r ++ "D.x") = Ok (DName (q ++ "D_start"))) /\
  (forall p ds, is_digits ds = true -> 1 <= String.length ds <= 3 ->
     derive_initial (p ++ "[" ++ ds ++ "]") = Ok (DName (p ++ "_start" ++ "[" ++ ds ++ "]"))) /\
  (forall p c, c <> "]"%char ->
     ~ ends_with "I.y" (p ++ String c "") -> ~ ends_with "D.x" (p ++ String c "") ->
     derive_initial (p ++ String c "") = Ok (DName ((p ++ String c "") ++ "_start"))) /\
  derive_initial "bioreactor.m[1]" = Ok (DName "bioreactor.m_start[1]").
Proof.
  split; [|split; [|split; [|split; [|split; [|split]]]]].
  - intros key [p ->]. rewrite (derive_ends p "I.y" "y"%char); reflexivity.
  - intros q r Hr. rewrite (derive_ident_suffix q r "I.y" "y"%char); reflexivity || assumption.
  - intros key [p ->]. rewrite (derive_ends p "D.x" "x"%char); reflexivity.
  - intros q r Hr. rewrite (derive_ident_suffix q r "D.x" "x"%char); reflexivity || assumption.
  - apply derive_bracket_short.
  - intros p c Hc HI HD. rewrite derive_other by assumption.
    rewrite PyStrFacts.append_assoc. reflexivity.
  - reflexivity.
Qed.

Lemma derive_initial_rule_table_witness :
  derive_initial ("bio" ++ "ctrl.PI" ++ "I.y") = Ok (DName ("bio" ++ "I_start")) /\
  derive_initial ("foo" ++ "[" ++ "12" ++ "]") = Ok (DName ("foo" ++ "_start" ++ "[" ++ "12" ++ "]")) /\
  derive_initial ("bioreactor" ++ String "V" "") = Ok (DName (("bioreactor" ++ String "V" "") ++ "_start")).
Proof.
  destruct derive_initial_rule_table as (H1 & H2 & H3 & H4 & H5 & H6 & H7).
  split; [apply H2; reflexivity|split].
  - apply H5; [reflexivity|simpl; lia].
  - apply H6.
    + discriminate.
    + intros [p Hp]. apply (f_equal (fun s => py_take_last s 3)) in Hp. simpl in Hp.
      rewrite (PyStrFacts.py_take_last_app p "I.y") in Hp by (simpl; lia).
      vm_compute in Hp. discriminate.
    + intros [p Hp]. apply (f_equal (fun s => py_take_last s 3)) in Hp. simpl in Hp.
      rewrite (PyStrFacts.py_take_last_app p "D.x") in Hp by (simpl; lia).
      vm_compute in Hp. discriminate.
Defined.

(** C2 (as the code does it): building [stateDictInitial] is total when
    every state key has a supported shape, with nothing printed and
    nothing raised.  At the first key whose bracket suffix has four or
    more digits the loop prints the "more than 1000 states" line and
    [break]s without raising: that key and every later key are left
    without a derived name, and loading continues. *)
Theorem build_stateDictInitial_total_or_stops :
  (forall ks, Forall supported_key ks ->
     let '(sdi, lg, r) := build_stateDictInitial ks in
     r = Ok tt /\ lg = [] /\
     forall k, In k ks -> exists n, derive_initial k = Ok (DName n) /\ PyDict.get sdi k = Some n) /\
  (forall pre key post, Forall supported_key pre -> too_long_key key ->
     let '(sdi, lg, r) := build_stateDictInitial (pre ++ key :: post) in
     r = Ok tt /\ lg = [msg_too_many_states] /\
     forall k, PyDict.get sdi k <> None -> In k pre).
Proof.
  split.
  - intros ks Hs. unfold build_stateDictInitial.
    assert (Hn : Forall (fun k => exists n, derive_initial k = Ok (DName n)) ks)
      by (eapply Forall_impl; [apply supported_derives|exact Hs]).
    destruct (build_initial_loop_names ks [] [] Hn) as (H1 & H2 & H3).
    destruct (build_initial_loop ks [] []) as [[sdi lg] r]; simpl in *.
    split; [assumption|split; [assumption|]]. intros k Hk. apply (proj1 (H3 k)), Hk.
  - intros pre key post Hs (p & ds & -> & Hd & Hl). unfold build_stateDictInitial.
    assert (Hn : Forall (fun k => exists n, derive_initial k = Ok (DName n)) pre)
      by (eapply Forall_impl; [apply supported_derives|exact Hs]).
    rewrite build_initial_loop_app by exact Hn. cbn [build_initial_loop].
    rewrite derive_bracket_long by assumption.
    destruct (build_initial_loop_names pre [] [] Hn) as (H1 & H2 & H3).
    split; [reflexivity|split; [reflexivity|]].
    intros k Hk. destruct (in_dec string_dec k pre) as [|Hout]; [assumption|].
    exfalso. apply Hk. rewrite (proj2 (H3 k) Hout). reflexivity.
Qed.

Lemma build_stateDictInitial_total_or_stops_witness :
  (let '(sdi, lg, r) := build_stateDictInitial ["bioreactor.m[1]"; "bioreactor.V"] in
   r = Ok tt /\ lg = [] /\
   forall k, In k ["bioreactor.m[1]"; "bioreactor.V"] ->
     exists n, derive_initial k = Ok (DName n) /\ PyDict.get sdi k = Some n) /\
  (let '(sdi, lg, r) := build_stateDictInitial (["bioreactor.m[1]"] ++ "bioreactor.m[1000]" :: ["bioreactor.V"]) in
   r = Ok tt /\ lg = [msg_too_many_states] /\ forall k, PyDict.get sdi k <> None -> In k ["bioreactor.m[1]"]).
Proof.
  destruct build_stateDictInitial_total_or_stops as [H1 H2]. split.
  - apply H1. constructor; [|constructor; [|constructor]].
    + right. exists "bioreactor.m", "1". split; [reflexivity|split; [reflexivity|simpl; lia]].
    + left. exists "bioreactor.", "V"%char. split; [reflexivity|discriminate].
  - apply H2.
    + constructor; [|constructor]. right. exists "bioreactor.m", "1".
      split; [reflexivity|split; [reflexivity|simpl; lia]].
    + exists "bioreactor.m", "1000". split; [reflexivity|split; [reflexivity|simpl; lia]].
Defined.

(** C2 as stated fails: with a state key [bioreactor.m[1000]] placed
    before [bioreactor.m[1]], the loading loop raises nothing (no fatal
    error) and the supported key [bioreactor.m[1]] gets no derived
    name. *)
Lemma build_stateDictInitial_not_fatal :
  let '(sdi, lg, r) := build_stateDictInitial ["bioreactor.m[1000]"; "bioreactor.m[1]"] in
  r = Ok tt /\ lg = [msg_too_many_states] /\ PyDict.get sdi "bioreactor.m[1]" = None.
Proof. vm_compute. split; [reflexivity|split; reflexivity]. Qed.

(* ================================================================== *)
(** * [par()] and [init()] *)

Lemma mem_get {V} (d : pydict V) (k : string) : PyDict.mem k d = true <-> PyDict.get d k <> None.
Proof. rewrite PyDictFacts.mem_In, PyDictFacts.get_Some_keys. reflexivity. Qed.

Lemma existsb_keys_mem {V} (d : pydict V) (k : string) :
  existsb (String.eqb k) (PyDict.keys d) = PyDict.mem k d.
Proof. reflexivity. Qed.

Lemma update_get_NoDup {V} (d e : pydict V) (k : string) :
  NoDup (PyDict.keys e) ->
  PyDict.get (PyDict.update d e) k =
  match PyDict.get e k with Some v => Some v | None => PyDict.get d k end.
Proof.
  intros H. rewrite PyDictFacts.get_update, PyDictFacts.get_rev_NoDup by exact H. reflexivity.
Qed.

Lemma stage_spec (accept : string -> bool) (reject : string -> string) (x : pydict Q)
    (ks : list string) (tmp : pydict Q) (lines : list string) :
  NoDup (PyDict.keys tmp) ->
  NoDup (PyDict.keys (fst (stage accept reject x ks tmp lines))) /\
  (forall k, PyDict.get (fst (stage accept reject x ks tmp lines)) k =
     if accept k && existsb (String.eqb k) ks then
       match PyDict.get x k with Some v => Some v | None => PyDict.get tmp k end
     else PyDict.get tmp k) /\
  (forall l, In l lines -> In l (snd (stage accept reject x ks tmp lines))) /\
  (forall k, In k ks -> accept k = false -> In (reject k) (snd (stage accept reject x ks tmp lines))).
Proof.
  revert tmp lines. induction ks as [|key ks IH]; intros tmp lines Hnd; simpl.
  - split; [assumption|split; [|split]].
    + intros k. rewrite andb_false_r. reflexivity.
    + auto.
    + intros k [].
  - destruct (accept key) eqn:Ea.
    + destruct (PyDict.get x key) as [v|] eqn:Ex.
      * destruct (IH (PyDict.set tmp key v) lines (PyDictFacts.NoDup_set _ _ _ Hnd))
          as (H1 & H2 & H3 & H4).
        split; [assumption|split; [|split; [assumption|]]].
        -- intros k. rewrite H2, PyDictFacts.get_set.
           destruct (String.eqb_spec k key) as [->|Hne]; simpl.
           ++ rewrite Ea, Ex. simpl. destruct (existsb _ ks); reflexivity.
           ++ reflexivity.
        -- intros k [<-|Hk] Hr; [congruence|]. apply H4; assumption.
      * destruct (IH tmp lines Hnd) as (H1 & H2 & H3 & H4).
        split; [assumption|split; [|split; [assumption|]]].
        -- intros k. rewrite H2.
           destruct (String.eqb_spec k key) as [->|Hne]; simpl.
           ++ rewrite Ea, Ex. simpl. destruct (existsb _ ks); reflexivity.
           ++ reflexivity.
        -- intros k [<-|Hk] Hr; [congruence|]. apply H4; assumption.
    + destruct (IH tmp (app lines [reject key]) Hnd) as (H1 & H2 & H3 & H4).
      split; [assumption|split; [|split]].
      * intros k. rewrite H2.
        destruct (String.eqb_spec k key) as [->|Hne]; simpl.
        -- rewrite Ea. reflexivity.
        -- reflexivity.
      * intros l Hl. apply H3, in_or_app; left; exact Hl.
      * intros k [<-|Hk] Hr.
        -- apply H3, in_or_app; right; left; reflexivity.
        -- apply H4; assumption.
Qed.

(** After staging from the keys of [x] into an empty [x_temp] *)
Lemma stage_keys_get (accept : string -> bool) (reject : string -> string) (x : pydict Q) k :
  PyDict.get (fst (stage accept reject x (PyDict.keys x) [] [])) k =
  if accept k && PyDict.mem k x then PyDict.get x k else None.
Proof.
  destruct (stage_spec accept reject x (PyDict.keys x) [] [] (NoDup_nil _)) as (_ & H & _).
  rewrite H, existsb_keys_mem. destruct (accept k && PyDict.mem k x); [|reflexivity].
  destruct (PyDict.get x k); reflexivity.
Qed.

Lemma par_parDict (cfg : config) (st : session) (u : pydict Q) (k : string) :
  PyDict.get (parDict (fst (par cfg st u))) k =
  if PyDict.mem k (parDict st) && PyDict.mem k u then PyDict.get u k
  else PyDict.get (parDict st) k.
Proof.
  assert (Hs := stage_spec (fun key => PyDict.mem key (parDict st)) msg_not_parameter
                  u (PyDict.keys u) [] [] (NoDup_nil _)).
  assert (Hg := stage_keys_get (fun key => PyDict.mem key (parDict st)) msg_not_parameter u k).
  unfold par.
  destruct (stage _ _ u (PyDict.keys u) [] []) as [x_temp lines]; simpl in *.
  destruct Hs as (Hnd & _).
  assert (E : PyDict.get (parDict (py_print (with_parDict st (PyDict.update (parDict st) x_temp)) lines)) k =
              if PyDict.mem k (parDict st) && PyDict.mem k u then PyDict.get u k
              else PyDict.get (parDict st) k).
  { simpl. rewrite update_get_NoDup by exact Hnd. rewrite Hg.
    destruct (PyDict.mem k (parDict st) && PyDict.mem k u) eqn:Em; [|reflexivity].
    apply andb_prop in Em as [_ Em]. apply mem_get in Em.
    destruct (PyDict.get u k); [reflexivity|contradiction]. }
  destruct (failing_checks _ (parCheck cfg)) as [[|c errs]|e]; exact E.
Qed.

Lemma init_parDict (st : session) (u : pydict Q) (k : string) :
  PyDict.get (parDict (init st u)) k =
  if py_in "_start" k && PyDict.mem k u then PyDict.get u k
  else PyDict.get (parDict st) k.
Proof.
  assert (Hs := stage_spec (fun key => py_in "_start" key) msg_not_initial
                  u (PyDict.keys u) [] [] (NoDup_nil _)).
  assert (Hg := stage_keys_get (fun key => py_in "_start" key) msg_not_initial u k).
  unfold init.
  destruct (stage _ _ u (PyDict.keys u) [] []) as [x_init lines]; simpl in *.
  destruct Hs as (Hnd & _).
  rewrite update_get_NoDup by exact Hnd. rewrite Hg.
  destruct (py_in "_start" k && PyDict.mem k u) eqn:Em; [|reflexivity].
  apply andb_prop in Em as [_ Em]. apply mem_get in Em.
  destruct (PyDict.get u k); [reflexivity|contradiction].
Qed.

Lemma failing_checks_ok (pd : pydict Q) (cs : list check) :
  (forall c, In c cs -> exists b, eval_check pd c = Ok b) ->
  exists errs, failing_checks pd cs = Ok errs /\
    forall c, In c cs -> eval_check pd c = Ok false -> In c errs.
Proof.
  induction cs as [|c cs IH]; intros H; simpl.
  - exists []. split; [reflexivity|intros ? []].
  - destruct (H c (or_introl eq_refl)) as [b Hb]. rewrite Hb. simpl.
    destruct IH as [errs [He Hin]]; [intros c' Hc'; apply H; right; exact Hc'|].
    rewrite He. simpl. eexists; split; [reflexivity|].
    intros c' [<-|Hc'] Hf.
    + rewrite Hf in Hb. injection Hb as <-. left; reflexivity.
    + destruct b; [|right]; apply Hin; assumption.
Qed.

Lemma print_log (st : session) (lines : list string) (l : string) :
  In l (log st) \/ In l lines -> In l (log (py_print st lines)).
Proof. intros H. simpl. apply in_or_app. exact H. Qed.

(** C6: [par] commits every known key (a key of the current store) with
    its new value, leaves every other key of the store as it was, prints
    an "not an accessible parameter" line for each unknown key, and
    evaluates the requirements on the updated store: when they all
    evaluate, [par] returns normally and prints the text of each one
    that fails, while the update stays committed. *)
Theorem par_fail_open (cfg : config) (st : session) (u : pydict Q) :
  let P := parDict st in
  let st' := fst (par cfg st u) in
  let P' := parDict st' in
  (forall k, In k (PyDict.keys u) -> In k (PyDict.keys P) -> PyDict.get P' k = PyDict.get u k) /\
  (forall k, ~ (In k (PyDict.keys u) /\ In k (PyDict.keys P)) -> PyDict.get P' k = PyDict.get P k) /\
  (forall k, In k (PyDict.keys u) -> ~ In k (PyDict.keys P) -> In (msg_not_parameter k) (log st')) /\
  ((forall c, In c (parCheck cfg) -> exists b, eval_check P' c = Ok b) ->
     snd (par cfg st u) = Ok tt /\
     forall c, In c (parCheck cfg) -> eval_check P' c = Ok false -> In (ctext c) (log st')).
Proof.
  intros P st' P'. split; [|split; [|split]].
  - intros k Hu HP. unfold P', st'. rewrite par_parDict.
    apply PyDictFacts.mem_In in Hu, HP. fold P. rewrite HP, Hu. reflexivity.
  - intros k Hn. unfold P', st'. rewrite par_parDict. fold P.
    destruct (PyDict.mem k P) eqn:E1, (PyDict.mem k u) eqn:E2; simpl; try reflexivity.
    apply PyDictFacts.mem_In in E1, E2. tauto.
  - intros k Hu HP. unfold st'.
    assert (Hs := stage_spec (fun key => PyDict.mem key (parDict st)) msg_not_parameter
                    u (PyDict.keys u) [] [] (NoDup_nil _)).
    destruct Hs as (_ & _ & _ & H4).
    assert (Hm : PyDict.mem k (parDict st) = false).
    { destruct (PyDict.mem k (parDict st)) eqn:E; [|reflexivity].
      apply PyDictFacts.mem_In in E. contradiction. }
    specialize (H4 k Hu Hm). unfold par.
    destruct (stage _ _ u (PyDict.keys u) [] []) as [x_temp lines]; simpl in H4.
    destruct (failing_checks _ (parCheck cfg)) as [[|c errs]|e];
      simpl; rewrite ?in_app_iff; tauto.
  - intros Hall. unfold P', st' in *. unfold par in *.
    destruct (stage _ _ u (PyDict.keys u) [] []) as [x_temp lines].
    set (st1 := py_print (with_parDict st (PyDict.update (parDict st) x_temp)) lines) in *.
    assert (Hp : parDict (fst (match failing_checks (parDict st1) (parCheck cfg) with
                               | Raise e => (st1, Raise e)
                               | Ok [] => (st1, Ok tt)
                               | Ok errs => (py_print st1 (msg_requirements :: map ctext errs), Ok tt)
                               end)) = parDict st1)
      by (destruct (failing_checks (parDict st1) (parCheck cfg)) as [[|]|]; reflexivity).
    rewrite Hp in Hall |- *.
    destruct (failing_checks (parDict st1) (parCheck cfg)) as [errs|e] eqn:Ef.
    + destruct (failing_checks_ok (parDict st1) (parCheck cfg)) as [errs' [He Hin]].
      { exact Hall. }
      rewrite Ef in He. injection He as <-.
      destruct errs as [|c0 errs]; simpl.
      * split; [reflexivity|]. intros c Hc Hf. apply Hin in Hf; [contradiction|exact Hc].
      * split; [reflexivity|]. intros c Hc Hf. apply Hin in Hf; [|exact Hc].
        apply in_or_app. right. right. change (In (ctext c) (map ctext (c0 :: errs))).
        apply in_map. exact Hf.
    + exfalso. destruct (failing_checks_ok (parDict st1) (parCheck cfg) Hall) as [errs' [He _]].
      congruence.
Qed.

Lemma par_fail_open_witness :
  let st' := fst (par batch_config batch_session [("Y", 0%Q); ("bogus_name", 1%Q)]) in
  PyDict.get (parDict st') "Y" = Some 0%Q /\
  PyDict.get (parDict st') "bogus_name" = None /\
  In (msg_not_parameter "bogus_name") (log st') /\
  In "parDict['Y'] > 0" (log st').
Proof.
  intros st'. unfold st'.
  destruct (par_fail_open batch_config batch_session [("Y", 0%Q); ("bogus_name", 1%Q)])
    as (H1 & H2 & H3 & H4).
  split; [|split; [|split]].
  - apply H1; simpl; auto.
  - rewrite H2; [reflexivity|]. simpl. intros [_ [H|[H|[H|[H|[H|[H|[]]]]]]]]; discriminate.
  - apply H3; [simpl; auto|]. simpl. intros [H|[H|[H|[H|[H|[H|[]]]]]]]; discriminate.
  - assert (Hall : forall c, In c (parCheck batch_config) ->
              exists b, eval_check (parDict (fst (par batch_config batch_session
                          [("Y", 0%Q); ("bogus_name", 1%Q)]))) c = Ok b).
    { intros c Hc. simpl in Hc.
      destruct Hc as [<-|[<-|[<-|[<-|[<-|[<-|[]]]]]]]; eexists; reflexivity. }
    apply (proj2 (H4 Hall) (Check_ "parDict['Y'] > 0" "Y" true)).
    + simpl; left; reflexivity.
    + reflexivity.
Defined.

(** C7: applying [par] (resp. [init]) twice with the same update gives
    the same store contents as applying it once. *)
Theorem par_init_idempotent (cfg : config) (st : session) (u : pydict Q) :
  (forall k, PyDict.get (parDict (fst (par cfg (fst (par cfg st u)) u))) k =
             PyDict.get (parDict (fst (par cfg st u))) k) /\
  (forall k, PyDict.get (parDict (init (init st u) u)) k =
             PyDict.get (parDict (init st u)) k).
Proof.
  split; intros k.
  - rewrite !par_parDict.
    assert (Hm : PyDict.mem k (parDict (fst (par cfg st u))) = PyDict.mem k (parDict st)).
    { destruct (PyDict.mem k (parDict (fst (par cfg st u)))) eqn:E,
               (PyDict.mem k (parDict st)) eqn:E'; try reflexivity; exfalso.
      - apply mem_get in E. rewrite par_parDict, E' in E. simpl in E.
        apply mem_get in E. congruence.
      - assert (Hn : PyDict.get (parDict (fst (par cfg st u))) k <> None).
        { rewrite par_parDict, E'. simpl.
          destruct (PyDict.mem k u) eqn:Eu; apply mem_get; assumption. }
        apply mem_get in Hn. congruence. }
    rewrite Hm. destruct (PyDict.mem k (parDict st)), (PyDict.mem k u); reflexivity.
  - rewrite !init_parDict. destruct (py_in "_start" k && PyDict.mem k u); reflexivity.
Qed.

(** C10: [init] commits every key containing [_start] with its new
    value, whether or not the store knows the key: there is no
    membership test and no requirement is evaluated, so a new key
    without any location can enter the store. *)
Theorem init_accepts_any_start_key (st : session) (u : pydict Q) (k : string) :
  py_in "_start" k = true -> In k (PyDict.keys u) ->
  PyDict.get (parDict (init st u)) k = PyDict.get u k.
Proof.
  intros Hs Hu. rewrite init_parDict, Hs, (proj2 (PyDictFacts.mem_In k u) Hu).
  reflexivity.
Qed.

Lemma init_accepts_any_start_key_witness :
  PyDict.get (parDict batch_session) "foo_start" = None /\
  PyDict.get (parLocation batch_config) "foo_start" = None /\
  PyDict.get (parDict (init batch_session [("foo_start", 2%Q)])) "foo_start" = Some 2%Q.
Proof.
  split; [reflexivity|split; [reflexivity|]].
  rewrite (init_accepts_any_start_key batch_session [("foo_start", 2%Q)] "foo_start").
  - reflexivity.
  - reflexivity.
  - simpl. left. reflexivity.
Defined.

(* ================================================================== *)
(** * [model_get()] *)

Lemma model_get_loop_no_match (cat : list mvar) sr sv (name : string) value :
  existsb (fun v => String.eqb (vname v) name) cat = false ->
  model_get_loop cat sr sv name value = Ok value.
Proof.
  induction cat as [|v cat IH]; simpl; [reflexivity|].
  intros H. apply orb_false_iff in H as [H1 H2]. rewrite H1. apply IH, H2.
Qed.

(** C8 (defect): for a name that no variable of the catalog has, the
    loop never assigns [value] and [return value] raises
    [UnboundLocalError] instead of giving an "unavailable" result. *)
Theorem model_get_unknown_name_raises (cat : list mvar) sr sv (name : string) :
  existsb (fun v => String.eqb (vname v) name) cat = false ->
  model_get cat sr sv name = Raise UnboundLocalError.
Proof.
  intros H. unfold model_get. rewrite model_get_loop_no_match by exact H. reflexivity.
Qed.

Lemma model_get_unknown_name_raises_witness :
  existsb (fun v => String.eqb (vname v) "bogus_name") batch_catalog = false /\
  model_get batch_catalog None None "bogus_name" = Raise UnboundLocalError.
Proof.
  split; [reflexivity|]. apply model_get_unknown_name_raises. reflexivity.
Defined.

(* ================================================================== *)
(** * Output selection *)

(** C9: the [output] list of a run has no duplicates, and its members
    are exactly the local catalog variables whose name occurs in the
    text of some diagram command, the state keys and the key
    variables. *)
Theorem sim_output_members (cfg : config) (diagrams : list string) (st : session) :
  NoDup (sim_output cfg diagrams st) /\
  forall x, In x (sim_output cfg diagrams st) <->
    (exists v, In v (catalog cfg) /\ is_local v = true /\ vname v = x /\
               exists c, In c diagrams /\ py_in x c = true)
    \/ In x (PyDict.keys (stateDict st)) \/ In x (key_variables cfg).
Proof.
  unfold sim_output, py_set_list. split; [apply NoDup_nodup|].
  intros x. rewrite nodup_In, !in_app_iff. unfold extract_variables.
  rewrite in_flat_map. split.
  - intros [(c & Hc & Hx) | H]; [left|right; exact H].
    apply in_map_iff in Hx as (v & <- & Hv). apply filter_In in Hv as [Hv Hin].
    apply filter_In in Hv as [Hv Hl].
    exists v. split; [exact Hv|split; [exact Hl|split; [reflexivity|]]].
    exists c. split; assumption.
  - intros [(v & Hv & Hl & <- & c & Hc & Hin) | H]; [left|right; exact H].
    exists c. split; [exact Hc|]. apply in_map. apply filter_In.
    split; [apply filter_In; split; assumption|exact Hin].
Qed.

(* ================================================================== *)
(** * [simu()]: usage errors and failed runs *)

Lemma fresh_not_cont (mode : string) : fresh_mode mode = true -> cont_mode mode = false.
Proof.
  unfold fresh_mode. intros H. apply existsb_exists in H as (s & Hs & E).
  apply String.eqb_eq in E; subst.
  simpl in Hs. destruct Hs as [<-|[<-|[<-|[]]]]; reflexivity.
Qed.

Lemma cons_neq {A} (x : A) (l : list A) : x :: l <> l.
Proof. intros H. apply (f_equal (@length A)) in H. simpl in H. lia. Qed.

(** C4: a call of [simu] with a mode that is neither fresh nor continued,
    or in continued mode while the cursor is [0], only prints: the
    result is the same session with diagnostic lines appended to the
    log, no [simulate_fmu] call recorded, state values and cursor as
    before, and nothing raised. *)
Theorem simu_usage_error_no_effect (cfg : config) (fmu : invocation -> option simres)
    (diagrams : list string) (d : Q) (mode : string) (st : session) :
  (fresh_mode mode = false /\ cont_mode mode = false) \/
  (cont_mode mode = true /\ Qeq_bool (prevFinalTime st) 0 = true) ->
  exists lines, lines <> [] /\
    simu cfg fmu diagrams d mode st = (py_print st lines, Ok tt) /\
    calls (py_print st lines) = calls st /\
    stateDict (py_print st lines) = stateDict st /\
    prevFinalTime (py_print st lines) = prevFinalTime st /\
    parDict (py_print st lines) = parDict st.
Proof.
  intros [[Hf Hc] | [Hc Hz]]; unfold simu.
  - rewrite Hf, Hc. exists [msg_mode; msg_no_sim].
    split; [discriminate|repeat split].
  - destruct (fresh_mode mode) eqn:Hf.
    + apply fresh_not_cont in Hf. congruence.
    + rewrite Hc, Hz. exists [msg_first_init; msg_no_sim].
      split; [discriminate|repeat split].
Qed.

Lemma simu_usage_error_no_effect_witness :
  ((fresh_mode "cont" = false /\ cont_mode "cont" = false) \/
   (cont_mode "cont" = true /\ Qeq_bool (prevFinalTime batch_session) 0 = true)) /\
  exists lines, lines <> [] /\
    simu batch_config demo_fmu batch_diagrams 5 "cont" batch_session =
      (py_print batch_session lines, Ok tt) /\
    calls (py_print batch_session lines) = calls batch_session /\
    stateDict (py_print batch_session lines) = stateDict batch_session /\
    prevFinalTime (py_print batch_session lines) = prevFinalTime batch_session /\
    parDict (py_print batch_session lines) = parDict batch_session.
Proof.
  assert (H : (fresh_mode "cont" = false /\ cont_mode "cont" = false) \/
              (cont_mode "cont" = true /\ Qeq_bool (prevFinalTime batch_session) 0 = true))
    by (right; split; reflexivity).
  split; [exact H|]. apply simu_usage_error_no_effect. exact H.
Defined.

Lemma feedback_calls (cat : list mvar) (ks : list string) (st : session) :
  calls (fst (feedback cat ks st)) = calls st.
Proof.
  revert st. induction ks as [|key ks IH]; intros st; simpl; [reflexivity|].
  destruct (model_get _ _ _ key); simpl; [rewrite IH|]; reflexivity.
Qed.

Lemma after_run_calls (cfg : config) (st : session) (r : simres) :
  calls (fst (after_run cfg st r)) = calls st.
Proof.
  unfold after_run.
  pose proof (feedback_calls (catalog cfg) (PyDict.keys (stateDict (with_sim_res st r)))
                (with_sim_res st r)) as H.
  destruct (feedback _ _ _) as [st2 fr]. simpl in H.
  destruct fr; [destruct (bind _ py_last)|]; simpl; exact H.
Qed.

Lemma after_run_ok (cfg : config) (st : session) (r : simres) :
  snd (after_run cfg st r) = Ok tt ->
  bind (simres_field r "time") py_last = Ok (prevFinalTime (fst (after_run cfg st r))).
Proof.
  unfold after_run. destruct (feedback _ _ _) as [st2 fr].
  destruct fr as [_|e]; [|discriminate].
  destruct (bind (simres_field r "time") py_last) as [t|e]; [|discriminate].
  reflexivity.
Qed.

(** What one [run_fmu] does: either the division by [ncp] raises before
    any call, or exactly one call is recorded; a failed call leaves the
    state values and the cursor as they were. *)
Lemma run_fmu_spec (cfg : config) (fmu : invocation -> option simres)
    (diagrams : list string) (T t0 t1 : Q) (sv : pydict (option Q)) (st st' : session)
    (r : res unit) :
  run_fmu cfg fmu diagrams T t0 t1 sv st = (st', r) ->
  (calls st' = calls st /\ r = Raise ZeroDivisionError) \/
  exists inv, calls st' = inv :: calls st /\ inv_start inv = t0 /\ inv_stop inv = t1 /\
    inv_start_values inv = sv /\
    ((fmu inv = None /\ stateDict st' = stateDict st /\
      prevFinalTime st' = prevFinalTime st /\ r = Raise FMUError) \/
     (exists rr, fmu inv = Some rr /\
        (r = Ok tt -> bind (simres_field rr "time") py_last = Ok (prevFinalTime st')))).
Proof.
  unfold run_fmu. intros H.
  destruct (Qeq_bool (ncp cfg) 0).
  - injection H as <- <-. left; split; reflexivity.
  - right. set (inv := Invocation _ _ _ _ _) in H. exists inv.
    destruct (fmu inv) as [rr|] eqn:Ef.
    + pose proof (after_run_calls cfg (add_call (with_start_values st sv) inv) rr) as Hc.
      pose proof (after_run_ok cfg (add_call (with_start_values st sv) inv) rr) as Ho.
      rewrite H in Hc, Ho. simpl in Hc, Ho.
      split; [exact Hc|split; [reflexivity|split; [reflexivity|split; [reflexivity|]]]].
      right. exists rr. split; [reflexivity|exact Ho].
    + injection H as <- <-.
      split; [reflexivity|split; [reflexivity|split; [reflexivity|split; [reflexivity|]]]].
      left. repeat split.
Qed.

(** C5: when the recorded [simulate_fmu] call of a [simu] run fails
    (in either mode), the state values and the cursor keep their
    values from before the run and the error is raised to the caller. *)
Theorem simu_fmu_failure_preserves (cfg : config) (fmu : invocation -> option simres)
    (diagrams : list string) (d : Q) (mode : string) (st st' : session) (r : res unit)
    (inv : invocation) :
  simu cfg fmu diagrams d mode st = (st', r) ->
  calls st' = inv :: calls st ->
  fmu inv = None ->
  stateDict st' = stateDict st /\ prevFinalTime st' = prevFinalTime st /\ r = Raise FMUError.
Proof.
  intros Hs Hc Hf.
  assert (Hrun : forall T t0 t1 sv,
            run_fmu cfg fmu diagrams T t0 t1 sv st = (st', r) ->
            stateDict st' = stateDict st /\ prevFinalTime st' = prevFinalTime st /\
            r = Raise FMUError).
  { intros T t0 t1 sv H. apply run_fmu_spec in H as [[H _]|(inv' & H1 & _ & _ & _ & H2)].
    - rewrite H in Hc. exfalso. exact (cons_neq _ _ (eq_sym Hc)).
    - rewrite Hc in H1. injection H1 as <-.
      destruct H2 as [(_ & H3 & H4 & H5)|(rr & H3 & _)]; [|congruence].
      split; [exact H3|split; assumption]. }
  unfold simu in Hs.
  destruct (fresh_mode mode).
  - destruct (fresh_start_values cfg st) as [sv|e].
    + eapply Hrun; exact Hs.
    + injection Hs as <- <-. exfalso. exact (cons_neq _ _ (eq_sym Hc)).
  - destruct (cont_mode mode).
    + destruct (Qeq_bool (prevFinalTime st) 0).
      * injection Hs as <- <-. exfalso. exact (cons_neq _ _ (eq_sym Hc)).
      * destruct (cont_start_values cfg st) as [sv|e].
        -- eapply Hrun; exact Hs.
        -- injection Hs as <- <-. exfalso. exact (cons_neq _ _ (eq_sym Hc)).
    + injection Hs as <- <-. exfalso. exact (cons_neq _ _ (eq_sym Hc)).
Qed.

Lemma simu_fmu_failure_preserves_witness :
  let '(st', r) := simu batch_config failing_fmu batch_diagrams 5 "init" batch_session in
  exists inv, calls st' = inv :: calls batch_session /\ failing_fmu inv = None /\
    stateDict st' = stateDict batch_session /\
    prevFinalTime st' = prevFinalTime batch_session /\ r = Raise FMUError.
Proof.
  destruct (simu batch_config failing_fmu batch_diagrams 5 "init" batch_session)
    as [st' r] eqn:E.
  assert (Hc : exists inv, calls st' = inv :: calls batch_session).
  { vm_compute in E. injection E as <- <-. eexists. reflexivity. }
  destruct Hc as [inv Hc]. exists inv.
  split; [exact Hc|split; [reflexivity|]].
  exact (simu_fmu_failure_preserves batch_config failing_fmu batch_diagrams 5 "init"
           batch_session st' r inv E Hc eq_refl).
Defined.

(* ------------------------------------------------------------------ *)
(** ** [simu()] in continued mode *)

Lemma existsb_eqb_In (k : string) (l : list string) :
  existsb (String.eqb k) l = true <-> In k l.
Proof.
  rewrite existsb_exists. split.
  - intros [x [Hx E]]. apply String.eqb_eq in E; subst; assumption.
  - intros H. exists k; split; [assumption|apply String.eqb_refl].
Qed.

Lemma existsb_eqb_notIn (k : string) (l : list string) :
  existsb (String.eqb k) l = false <-> ~ In k l.
Proof.
  rewrite <- existsb_eqb_In. destruct (existsb (String.eqb k) l); split;
    congruence || (intros _ H; discriminate H) || auto.
Qed.

Lemma get_of_list {V} (e : pydict V) (k : string) :
  PyDict.get (PyDict.of_list e) k = PyDict.get (rev e) k.
Proof.
  unfold PyDict.of_list. rewrite PyDictFacts.get_update.
  destruct (PyDict.get (rev e) k); reflexivity.
Qed.

Lemma get_del_filter {V} (d : pydict V) (key k : string) :
  PyDict.get (filter (fun kv => negb (String.eqb key (fst kv))) d) k =
  if String.eqb k key then None else PyDict.get d k.
Proof.
  induction d as [|[k1 v1] d IH]; simpl; [destruct (String.eqb k key); reflexivity|].
  destruct (String.eqb_spec key k1) as [<-|Hne]; simpl.
  - rewrite IH. destruct (String.eqb_spec k key); reflexivity.
  - destruct (String.eqb_spec k k1) as [->|Hne'].
    + destruct (String.eqb_spec k1 key); [congruence|reflexivity].
    + exact IH.
Qed.

Lemma get_map_some {V} (a : pydict V) (k : string) :
  PyDict.get (map (fun kv => (fst kv, Some (snd kv))) a) k = option_map Some (PyDict.get a k).
Proof.
  induction a as [|[k1 v1] a IH]; simpl; [reflexivity|].
  destruct (String.eqb k k1); [reflexivity|exact IH].
Qed.

Lemma keys_map_some {V} (a : pydict V) :
  PyDict.keys (map (fun kv => (fst kv, Some (snd kv))) a) = PyDict.keys a.
Proof. unfold PyDict.keys. rewrite map_map. reflexivity. Qed.

Lemma Forall2_in_l {A B} (R : A -> B -> Prop) xs ys x :
  Forall2 R xs ys -> In x xs -> exists y, In y ys /\ R x y.
Proof.
  induction 1 as [|x1 y1 xs ys Hr _ IH]; simpl; [intros []|].
  intros [<-|Hin]; [exists y1; auto|].
  destruct (IH Hin) as [y [Hy Ry]]. exists y; auto.
Qed.

Lemma Forall2_in_r {A B} (R : A -> B -> Prop) xs ys y :
  Forall2 R xs ys -> In y ys -> exists x, In x xs /\ R x y.
Proof.
  induction 1 as [|x1 y1 xs ys Hr _ IH]; simpl; [intros []|].
  intros [<-|Hin]; [exists x1; auto|].
  destruct (IH Hin) as [x [Hx Rx]]. exists x; auto.
Qed.

Lemma dict_comp_spec {V} (f : string -> res (string * V)) (ks : list string)
    (acc d : pydict V) :
  dict_comp f ks acc = Ok d ->
  exists l, Forall2 (fun k kv => f k = Ok kv) ks l /\ d = PyDict.update acc l.
Proof.
  revert acc. induction ks as [|k ks IH]; intros acc H; simpl in H.
  - injection H as <-. exists []. split; [constructor|reflexivity].
  - destruct (f k) as [kv|e] eqn:Ef; simpl in H; [|discriminate].
    apply IH in H as [l [Hl ->]]. exists (kv :: l).
    split; [constructor; assumption|reflexivity].
Qed.

Lemma list_comp_spec {A} (f : string -> res A) (ks : list string) (l : list A) :
  list_comp f ks = Ok l -> Forall2 (fun k a => f k = Ok a) ks l.
Proof.
  revert l. induction ks as [|k ks IH]; intros l H; simpl in H.
  - injection H as <-. constructor.
  - destruct (f k) as [a|e] eqn:Ef; simpl in H; [|discriminate].
    destruct (list_comp f ks) as [l'|e] eqn:El; simpl in H; [|discriminate].
    injection H as <-. constructor; [assumption|apply IH; reflexivity].
Qed.

(** The body [(d1[k], d2[k])] shared by the comprehensions of lines 527-530 *)
Lemma pair_ok {V W} (d1 : pydict V) (d2 : pydict W) (k : string) (x : V) (w : W) :
  (let* l := PyDict.index d1 k in let* v := PyDict.index d2 k in Ok (l, v)) = Ok (x, w) <->
  PyDict.get d1 k = Some x /\ PyDict.get d2 k = Some w.
Proof.
  unfold PyDict.index.
  destruct (PyDict.get d1 k), (PyDict.get d2 k); simpl; split;
    try discriminate; try (intros [? ?]; discriminate).
  - intros [= -> ->]. split; reflexivity.
  - intros [[= ->] [= ->]]. reflexivity.
Qed.

Lemma get_locs (vs : list string) (acc : pydict string) (k : string) :
  PyDict.get (fold_left (fun acc v => PyDict.set acc v v) vs acc) k =
  if existsb (String.eqb k) vs then Some k else PyDict.get acc k.
Proof.
  revert acc. induction vs as [|v vs IH]; intros acc; simpl; [reflexivity|].
  rewrite IH, PyDictFacts.get_set.
  destruct (String.eqb_spec k v) as [->|Hne]; simpl; [|reflexivity].
  destruct (existsb (String.eqb v) vs); reflexivity.
Qed.

Lemma NoDup_locs (vs : list string) (acc : pydict string) :
  NoDup (PyDict.keys acc) ->
  NoDup (PyDict.keys (fold_left (fun acc v => PyDict.set acc v v) vs acc)).
Proof.
  revert acc. induction vs as [|v vs IH]; intros acc H; simpl; [exact H|].
  apply IH, PyDictFacts.NoDup_set, H.
Qed.

(** [stateDictInitialLoc] maps exactly the derived names, each to itself *)
Lemma build_stateDictInitialLoc_get (sdi : pydict string) (k : string) :
  PyDict.get (build_stateDictInitialLoc sdi) k =
  if existsb (String.eqb k) (PyDict.values sdi) then Some k else None.
Proof. unfold build_stateDictInitialLoc. rewrite get_locs. reflexivity. Qed.

Lemma build_stateDictInitialLoc_NoDup (sdi : pydict string) :
  NoDup (PyDict.keys (build_stateDictInitialLoc sdi)).
Proof. apply NoDup_locs. constructor. Qed.

(** The loop of lines 520-523: both dictionaries lose exactly the
    visited keys that are [superseded] *)
Lemma reduce_spec (cfg : config) (ks : list string) (pdr : pydict Q) (plr : pydict string)
    (a : pydict Q) (b : pydict string) :
  reduce cfg ks pdr plr = Ok (a, b) ->
  (forall k, PyDict.get a k =
             if existsb (String.eqb k) ks && superseded cfg k then None else PyDict.get pdr k) /\
  (forall k, PyDict.get b k =
             if existsb (String.eqb k) ks && superseded cfg k then None else PyDict.get plr k) /\
  (NoDup (PyDict.keys pdr) -> NoDup (PyDict.keys a)) /\
  (NoDup (PyDict.keys plr) -> NoDup (PyDict.keys b)).
Proof.
  revert pdr plr. induction ks as [|key ks IH]; intros pdr plr H; simpl in H.
  - injection H as <- <-. simpl. repeat split; auto.
  - unfold PyDict.index in H.
    destruct (PyDict.get (parLocation cfg) key) as [l|] eqn:El; simpl in H; [|discriminate].
    assert (Hsup : superseded cfg key = existsb (String.eqb l) (PyDict.values (stateDictInitial cfg)))
      by (unfold superseded; rewrite El; reflexivity).
    destruct (existsb (String.eqb l) (PyDict.values (stateDictInitial cfg))) eqn:Ex.
    + unfold PyDict.del in H.
      destruct (PyDict.mem key pdr); simpl in H; [|discriminate].
      destruct (PyDict.mem key plr); simpl in H; [|discriminate].
      apply IH in H as (Ha & Hb & Hna & Hnb).
      split; [|split; [|split]].
      * intros k. rewrite Ha, get_del_filter. simpl.
        destruct (String.eqb_spec k key) as [->|Hne]; simpl; [|reflexivity].
        rewrite Hsup. destruct (existsb (String.eqb key) ks); reflexivity.
      * intros k. rewrite Hb, get_del_filter. simpl.
        destruct (String.eqb_spec k key) as [->|Hne]; simpl; [|reflexivity].
        rewrite Hsup. destruct (existsb (String.eqb key) ks); reflexivity.
      * intros Hn. apply Hna, PyDictFacts.NoDup_keys_filter, Hn.
      * intros Hn. apply Hnb, PyDictFacts.NoDup_keys_filter, Hn.
    + apply IH in H as (Ha & Hb & Hna & Hnb).
      split; [|split; [|split]]; [| |exact Hna|exact Hnb].
      * intros k. rewrite Ha. simpl.
        destruct (String.eqb_spec k key) as [->|Hne]; simpl; [|reflexivity].
        rewrite Hsup. destruct (existsb (String.eqb key) ks); reflexivity.
      * intros k. rewrite Hb. simpl.
        destruct (String.eqb_spec k key) as [->|Hne]; simpl; [|reflexivity].
        rewrite Hsup. destruct (existsb (String.eqb key) ks); reflexivity.
Qed.

Section ContStartValues.
Variable cfg : config.
Variable st : session.

(** The location table [stateDictInitialLoc] is the one built from
    [stateDictInitial] at load time (line 154). *)
Hypothesis Hloc : stateDictInitialLoc cfg = build_stateDictInitialLoc (stateDictInitial cfg).
Hypothesis Hnd_pd : NoDup (PyDict.keys (parDict st)).
Hypothesis Hnd_pl : NoDup (PyDict.keys (parLocation cfg)).
(** No parameter carries the name of a derived initial value *)
Hypothesis Hpk : forall k, In k (PyDict.keys (parDict st)) -> ~ In k (PyDict.values (stateDictInitial cfg)).
(** Two state keys never derive the same initial-value name *)
Hypothesis Hinj : forall s1 s2 n, In s1 (PyDict.keys (stateDict st)) -> In s2 (PyDict.keys (stateDict st)) ->
  PyDict.get (stateDictInitial cfg) s1 = Some n -> PyDict.get (stateDictInitial cfg) s2 = Some n -> s1 = s2.
(** Two parameters never share a location *)
Hypothesis Hpinj : forall k1 k2 l, In k1 (PyDict.keys (parDict st)) -> In k2 (PyDict.keys (parDict st)) ->
  PyDict.get (parLocation cfg) k1 = Some l -> PyDict.get (parLocation cfg) k2 = Some l -> k1 = k2.

Lemma cont_start_values_spec (sv : pydict (option Q)) :
  cont_start_values cfg st = Ok sv ->
  (forall s n, In s (PyDict.keys (stateDict st)) -> PyDict.get (stateDictInitial cfg) s = Some n ->
     PyDict.get sv n = PyDict.get (stateDict st) s) /\
  (forall k v l, PyDict.get (parDict st) k = Some v -> PyDict.get (parLocation cfg) k = Some l ->
     ~ In l (PyDict.values (stateDictInitial cfg)) -> PyDict.get sv l = Some (Some v)) /\
  (forall x w, PyDict.get sv x = Some w ->
     (exists s, In s (PyDict.keys (stateDict st)) /\ PyDict.get (stateDictInitial cfg) s = Some x /\ PyDict.get (stateDict st) s = Some w) \/
     (exists k v, PyDict.get (parDict st) k = Some v /\ PyDict.get (parLocation cfg) k = Some x /\
                  ~ In x (PyDict.values (stateDictInitial cfg)) /\ w = Some v)).
Proof.
  unfold cont_start_values. intros H.
  destruct (reduce cfg (PyDict.keys (parDict st)) (parDict st) (parLocation cfg))
    as [[a b]|e] eqn:Er; cbn [bind fst snd] in H; [|discriminate].
  destruct (list_comp _ (PyDict.keys (stateDict st))) as [stitems|e] eqn:Es;
    cbn [bind] in H; [|discriminate].
  set (Locmod := PyDict.of_list (app b (stateDictInitialLoc cfg))) in H.
  set (pdm := PyDict.of_list (app (map (fun kv => (fst kv, Some (snd kv))) a) stitems)) in H.
  apply dict_comp_spec in H as [l [Hl ->]].
  apply reduce_spec in Er as (Ha & Hb & Hna & Hnb).
  specialize (Hna Hnd_pd). specialize (Hnb Hnd_pl).
  apply list_comp_spec in Es.
  change (PyDict.update [] l) with (PyDict.of_list l).
(* the location of each key of [parDictMod] *)
assert (F1 : forall k, PyDict.get Locmod k =
             if existsb (String.eqb k) (PyDict.values (stateDictInitial cfg)) then Some k else PyDict.get b k).
{ intros k. unfold Locmod. rewrite get_of_list, rev_app_distr, PyDictFacts.get_app.
  rewrite PyDictFacts.get_rev_NoDup by (rewrite Hloc; apply build_stateDictInitialLoc_NoDup).
  rewrite Hloc, build_stateDictInitialLoc_get.
  destruct (existsb _ _); [reflexivity|].
  apply PyDictFacts.get_rev_NoDup, Hnb. }
(* the state items *)
assert (F2a : forall k w, PyDict.get (rev stitems) k = Some w ->
              exists s, In s (PyDict.keys (stateDict st)) /\ PyDict.get (stateDictInitial cfg) s = Some k /\
                        PyDict.get (stateDict st) s = Some w).
{ intros k w Hg. apply PyDictFacts.get_rev_In in Hg.
  destruct (Forall2_in_r _ _ _ _ Es Hg) as [s [Hs Hf]].
  apply pair_ok in Hf. exists s. split; [exact Hs|exact Hf]. }
assert (F2b : forall s n w, In s (PyDict.keys (stateDict st)) -> PyDict.get (stateDictInitial cfg) s = Some n ->
              PyDict.get (stateDict st) s = Some w -> PyDict.get (rev stitems) n = Some w).
{ intros s n w Hs Hn Hw. apply PyDictFacts.get_rev_unique.
  - destruct (Forall2_in_l _ _ _ _ Es Hs) as [[n' w'] [Hin Hf]].
    apply pair_ok in Hf as [Hn' Hw']. congruence.
  - intros w' Hin. destruct (Forall2_in_r _ _ _ _ Es Hin) as [s' [Hs' Hf]].
    apply pair_ok in Hf as [Hn' Hw'].
    rewrite (Hinj s' s n Hs' Hs Hn' Hn) in Hw'. congruence. }
assert (F2c : forall k, ~ In k (PyDict.values (stateDictInitial cfg)) -> PyDict.get (rev stitems) k = None).
{ intros k Hk. destruct (PyDict.get (rev stitems) k) as [w|] eqn:Eg; [|reflexivity].
  exfalso. destruct (F2a k w Eg) as (s & _ & Hs & _).
  exact (Hk (PyDictFacts.get_values _ _ _ Hs)). }
(* the values of [parDictMod] *)
assert (F3 : forall k, PyDict.get pdm k =
             match PyDict.get (rev stitems) k with
             | Some w => Some w
             | None => option_map Some (PyDict.get a k)
             end).
{ intros k. unfold pdm. rewrite get_of_list, rev_app_distr, PyDictFacts.get_app.
  destruct (PyDict.get (rev stitems) k); [reflexivity|].
  rewrite PyDictFacts.get_rev_NoDup by (rewrite keys_map_some; exact Hna).
  apply get_map_some. }
assert (Hkeys : forall k w, PyDict.get pdm k = Some w -> In k (PyDict.keys pdm)).
{ intros k w Hw. apply PyDictFacts.get_Some_keys. congruence. }
(* a parameter that is kept has its own location *)
assert (Fkept : forall k v, ~ In k (PyDict.values (stateDictInitial cfg)) -> PyDict.get pdm k = Some v ->
          exists v0, v = Some v0 /\ PyDict.get (parDict st) k = Some v0 /\
                     superseded cfg k = false /\ PyDict.get b k = PyDict.get (parLocation cfg) k).
{ intros k v Hk Hv. rewrite F3, (F2c k Hk) in Hv.
  destruct (PyDict.get a k) as [v0|] eqn:Eg; simpl in Hv; [|discriminate].
  injection Hv as <-. exists v0. split; [reflexivity|].
  pose proof (Ha k) as Ha'. rewrite Eg in Ha'.
  destruct (existsb (String.eqb k) (PyDict.keys (parDict st)) && superseded cfg k)
    eqn:Ec; [discriminate|].
  assert (Hin : In k (PyDict.keys (parDict st)))
    by (apply PyDictFacts.get_Some_keys; congruence).
  apply existsb_eqb_In in Hin. rewrite Hin in Ec. simpl in Ec.
  split; [symmetry; exact Ha'|split; [exact Ec|]].
  rewrite Hb, Hin, Ec. reflexivity. }
split; [|split].
- (* (i) state entries *)
  intros s n Hs Hn.
  destruct (PyDict.get (stateDict st) s) as [w|] eqn:Hw;
    [|exfalso; apply (proj2 (PyDictFacts.get_Some_keys (stateDict st) s) Hs); exact Hw].
  assert (Hnv : In n (PyDict.values (stateDictInitial cfg))) by exact (PyDictFacts.get_values _ _ _ Hn).
  assert (Hpn : PyDict.get pdm n = Some w) by (rewrite F3, (F2b s n w Hs Hn Hw); reflexivity).
  assert (Hln : PyDict.get Locmod n = Some n)
    by (rewrite F1, (proj2 (existsb_eqb_In _ _) Hnv); reflexivity).
  rewrite get_of_list. apply PyDictFacts.get_rev_unique.
  + destruct (Forall2_in_l _ _ _ _ Hl (Hkeys n w Hpn)) as [[x w'] [Hin Hf]].
    apply pair_ok in Hf as [Hx Hw']. congruence.
  + intros w' Hin. destruct (Forall2_in_r _ _ _ _ Hl Hin) as [k [Hk Hf]].
    apply pair_ok in Hf as [Hx Hw'].
    rewrite F1 in Hx. destruct (existsb (String.eqb k) (PyDict.values (stateDictInitial cfg))) eqn:Ek.
    * injection Hx as ->. congruence.
    * apply existsb_eqb_notIn in Ek.
      destruct (Fkept k w' Ek Hw') as (v0 & _ & _ & Hsup & Hbk).
      unfold superseded in Hsup. rewrite Hbk in Hx. rewrite Hx in Hsup.
      apply existsb_eqb_notIn in Hsup. contradiction.
- (* (ii) kept parameters *)
  intros k v L Hv HL HnL.
  assert (Hk : ~ In k (PyDict.values (stateDictInitial cfg)))
    by (apply Hpk, PyDictFacts.get_Some_keys; congruence).
  assert (Hsup : superseded cfg k = false).
  { unfold superseded. rewrite HL. apply existsb_eqb_notIn, HnL. }
  assert (Hpk' : PyDict.get pdm k = Some (Some v)).
  { rewrite F3, (F2c k Hk), Ha, Hsup, andb_false_r. rewrite Hv. reflexivity. }
  assert (Hlk : PyDict.get Locmod k = Some L).
  { rewrite F1, (proj2 (existsb_eqb_notIn _ _) Hk), Hb, Hsup, andb_false_r. exact HL. }
  rewrite get_of_list. apply PyDictFacts.get_rev_unique.
  + destruct (Forall2_in_l _ _ _ _ Hl (Hkeys k _ Hpk')) as [[x w'] [Hin Hf]].
    apply pair_ok in Hf as [Hx Hw']. congruence.
  + intros w' Hin. destruct (Forall2_in_r _ _ _ _ Hl Hin) as [k' [Hk' Hf]].
    apply pair_ok in Hf as [Hx Hw'].
    rewrite F1 in Hx. destruct (existsb (String.eqb k') (PyDict.values (stateDictInitial cfg))) eqn:Ek.
    * injection Hx as ->. apply existsb_eqb_In in Ek. contradiction.
    * apply existsb_eqb_notIn in Ek.
      destruct (Fkept k' w' Ek Hw') as (v0 & -> & Hv0 & _ & Hbk).
      rewrite Hbk in Hx.
      assert (E : k' = k).
      { apply (Hpinj k' k L); [| |exact Hx|exact HL];
          apply PyDictFacts.get_Some_keys; congruence. }
      subst k'. congruence.
- (* (iii) nothing else *)
  intros x w Hg. rewrite get_of_list in Hg. apply PyDictFacts.get_rev_In in Hg.
  destruct (Forall2_in_r _ _ _ _ Hl Hg) as [k [Hk Hf]].
  apply pair_ok in Hf as [Hx Hw].
  rewrite F1 in Hx. destruct (existsb (String.eqb k) (PyDict.values (stateDictInitial cfg))) eqn:Ek.
  + injection Hx as ->. left.
    rewrite F3 in Hw. destruct (PyDict.get (rev stitems) x) as [w''|] eqn:Eg.
    * injection Hw as ->. apply F2a, Eg.
    * exfalso. destruct (PyDict.get a x) as [v0|] eqn:Ea; simpl in Hw; [|discriminate].
      apply existsb_eqb_In in Ek. apply (Hpk x); [|exact Ek].
      apply PyDictFacts.get_Some_keys. intros Hn.
      rewrite Ha in Ea. rewrite Hn in Ea.
      destruct (_ && _); discriminate.
  + apply existsb_eqb_notIn in Ek. right.
    destruct (Fkept k w Ek Hw) as (v0 & -> & Hv0 & Hsup & Hbk).
    rewrite Hbk in Hx. exists k, v0.
    split; [exact Hv0|split; [exact Hx|split; [|reflexivity]]].
    unfold superseded in Hsup. rewrite Hx in Hsup.
    apply existsb_eqb_notIn, Hsup.
Qed.
End ContStartValues.

Lemma not_in_values_by_bool (ks vs : list string) :
  forallb (fun k => negb (existsb (String.eqb k) vs)) ks = true ->
  forall k, In k ks -> ~ In k vs.
Proof.
  intros H k Hk. rewrite forallb_forall in H. specialize (H k Hk).
  apply existsb_eqb_notIn. destruct (existsb (String.eqb k) vs); [discriminate|reflexivity].
Qed.

(** C1: a continued run that reaches [simulate_fmu] covers the interval
    from the cursor to the cursor plus the duration; its start values
    map every derived initial-value name to the current value of its
    state entry, every parameter whose location is not such a name to
    its current value, and hold nothing else (the parameters located at
    a derived name are dropped); and when the run succeeds with a result
    that ends at the stop time, the cursor moves on by the duration.
    Assumed: the location table of line 154 is built from the derived
    names, keys of the dictionaries are distinct, no parameter is named
    like a derived name, derived names and parameter locations are
    injective. *)
Theorem simu_cont_overrides_and_cursor (cfg : config) (fmu : invocation -> option simres)
    (diagrams : list string) (d : Q) (mode : string) (st st' : session) (r : res unit)
    (inv : invocation) :
  stateDictInitialLoc cfg = build_stateDictInitialLoc (stateDictInitial cfg) ->
  NoDup (PyDict.keys (parDict st)) ->
  NoDup (PyDict.keys (parLocation cfg)) ->
  (forall k, In k (PyDict.keys (parDict st)) -> ~ In k (PyDict.values (stateDictInitial cfg))) ->
  (forall s1 s2 n, In s1 (PyDict.keys (stateDict st)) -> In s2 (PyDict.keys (stateDict st)) ->
     PyDict.get (stateDictInitial cfg) s1 = Some n ->
     PyDict.get (stateDictInitial cfg) s2 = Some n -> s1 = s2) ->
  (forall k1 k2 l, In k1 (PyDict.keys (parDict st)) -> In k2 (PyDict.keys (parDict st)) ->
     PyDict.get (parLocation cfg) k1 = Some l -> PyDict.get (parLocation cfg) k2 = Some l ->
     k1 = k2) ->
  cont_mode mode = true ->
  simu cfg fmu diagrams d mode st = (st', r) ->
  calls st' = inv :: calls st ->
  inv_start inv = prevFinalTime st /\
  inv_stop inv = (prevFinalTime st + d)%Q /\
  (forall s n, In s (PyDict.keys (stateDict st)) -> PyDict.get (stateDictInitial cfg) s = Some n ->
     PyDict.get (inv_start_values inv) n = PyDict.get (stateDict st) s) /\
  (forall k v l, PyDict.get (parDict st) k = Some v -> PyDict.get (parLocation cfg) k = Some l ->
     ~ In l (PyDict.values (stateDictInitial cfg)) ->
     PyDict.get (inv_start_values inv) l = Some (Some v)) /\
  (forall x w, PyDict.get (inv_start_values inv) x = Some w ->
     (exists s, In s (PyDict.keys (stateDict st)) /\
                PyDict.get (stateDictInitial cfg) s = Some x /\
                PyDict.get (stateDict st) s = Some w) \/
     (exists k v, PyDict.get (parDict st) k = Some v /\ PyDict.get (parLocation cfg) k = Some x /\
                  ~ In x (PyDict.values (stateDictInitial cfg)) /\ w = Some v)) /\
  ((forall i rr, fmu i = Some rr -> bind (simres_field rr "time") py_last = Ok (inv_stop i)) ->
   r = Ok tt -> prevFinalTime st' = (prevFinalTime st + d)%Q).
Proof.
  intros Hloc Hnd1 Hnd2 Hpk Hinj Hpinj Hm Hs Hc.
  unfold simu in Hs.
  destruct (fresh_mode mode) eqn:Hf;
    [apply fresh_not_cont in Hf; congruence|].
  rewrite Hm in Hs.
  destruct (Qeq_bool (prevFinalTime st) 0).
  { injection Hs as <- <-. exfalso. exact (cons_neq _ _ (eq_sym Hc)). }
  destruct (cont_start_values cfg st) as [sv|e] eqn:Ecs.
  2: { injection Hs as <- <-. exfalso. exact (cons_neq _ _ (eq_sym Hc)). }
  apply run_fmu_spec in Hs as [[H _]|(inv' & H1 & Hst & Hsp & Hsv & Hout)].
  { rewrite H in Hc. exfalso. exact (cons_neq _ _ (eq_sym Hc)). }
  rewrite Hc in H1. injection H1 as <-.
  destruct (cont_start_values_spec cfg st Hloc Hnd1 Hnd2 Hpk Hinj Hpinj sv Ecs)
    as (Hi & Hii & Hiii).
  rewrite Hsv.
  split; [exact Hst|split; [exact Hsp|split; [exact Hi|split; [exact Hii|split; [exact Hiii|]]]]].
  intros Htime Hr.
  destruct Hout as [(_ & _ & _ & Hr')|(rr & Hf' & Ho)]; [congruence|].
  specialize (Ho Hr). rewrite (Htime inv rr Hf'), Hsp in Ho. congruence.
Qed.

(** The scenario of the spec: a fresh run of 5, then [par(Y=0.6)], then
    a continued run of 5 with an FMU whose outputs end at [1 + stop]. *)
Lemma simu_cont_overrides_and_cursor_witness :
  let st1 := fst (simu batch_config demo_fmu batch_diagrams 5 "init" batch_session) in
  let st2 := fst (par batch_config st1 [("Y", 3#5)]) in
  let '(st3, r) := simu batch_config demo_fmu batch_diagrams 5 "cont" st2 in
  exists inv, calls st3 = inv :: calls st2 /\ r = Ok tt /\
    inv_start inv = 5%Q /\ inv_stop inv = (5 + 5)%Q /\
    PyDict.get (inv_start_values inv) "bioreactor.culture.Y" = Some (Some (3#5)%Q) /\
    PyDict.get (inv_start_values inv) "bioreactor.m_start[1]" = Some (Some 6%Q) /\
    PyDict.get (inv_start_values inv) "bioreactor.m_start[2]" = Some (Some 6%Q) /\
    prevFinalTime st3 = (5 + 5)%Q.
Proof.
  intros st1 st2.
  destruct (simu batch_config demo_fmu batch_diagrams 5 "cont" st2) as [st3 r] eqn:E.
  pose proof E as E'. vm_compute in E'. injection E' as Hst3 Hr.
  set (inv := hd (Invocation 0 0 0 [] []) (calls st3)).
  assert (Hc : calls st3 = inv :: calls st2)
    by (unfold inv; rewrite <- Hst3; vm_compute; reflexivity).
  assert (Hprev : prevFinalTime st2 = 5%Q) by (vm_compute; reflexivity).
  assert (Hpk : forall k, In k (PyDict.keys (parDict st2)) ->
                ~ In k (PyDict.values (stateDictInitial batch_config)))
    by (apply not_in_values_by_bool; vm_compute; reflexivity).
  assert (Hinj : forall s1 s2 n, In s1 (PyDict.keys (stateDict st2)) ->
                 In s2 (PyDict.keys (stateDict st2)) ->
                 PyDict.get (stateDictInitial batch_config) s1 = Some n ->
                 PyDict.get (stateDictInitial batch_config) s2 = Some n -> s1 = s2).
  { intros s1 s2 n H1 H2 E1 E2. vm_compute in H1, H2.
    repeat destruct H1 as [<-|H1]; try contradiction;
    repeat destruct H2 as [<-|H2]; try contradiction;
    vm_compute in E1, E2; congruence. }
  assert (Hpinj : forall k1 k2 l, In k1 (PyDict.keys (parDict st2)) ->
                  In k2 (PyDict.keys (parDict st2)) ->
                  PyDict.get (parLocation batch_config) k1 = Some l ->
                  PyDict.get (parLocation batch_config) k2 = Some l -> k1 = k2).
  { intros k1 k2 l H1 H2 E1 E2. vm_compute in H1, H2.
    repeat destruct H1 as [<-|H1]; try contradiction;
    repeat destruct H2 as [<-|H2]; try contradiction;
    vm_compute in E1, E2; congruence. }
  assert (Hnd1 : NoDup (PyDict.keys (parDict st2)))
    by (vm_compute; repeat constructor; simpl; intros H; intuition discriminate).
  assert (Hnd2 : NoDup (PyDict.keys (parLocation batch_config)))
    by (vm_compute; repeat constructor; simpl; intros H; intuition discriminate).
  destruct (simu_cont_overrides_and_cursor batch_config demo_fmu batch_diagrams 5 "cont"
              st2 st3 r inv eq_refl
              Hnd1 Hnd2
              Hpk Hinj Hpinj eq_refl E Hc)
    as (Hst & Hsp & Hi & Hii & _ & Hcur).
  rewrite Hprev in Hst, Hsp, Hcur.
  exists inv. split; [exact Hc|split; [symmetry; exact Hr|split; [exact Hst|split; [exact Hsp|]]]].
  split; [|split; [|split]].
  - apply (Hii "Y"); [vm_compute; reflexivity|reflexivity|].
    apply existsb_eqb_notIn. vm_compute. reflexivity.
  - rewrite (Hi "bioreactor.m[1]"); [vm_compute; reflexivity|vm_compute; auto|vm_compute; reflexivity].
  - rewrite (Hi "bioreactor.m[2]"); [vm_compute; reflexivity|vm_compute; auto|vm_compute; reflexivity].
  - apply Hcur; [|symmetry; exact Hr].
    intros i rr Hf. unfold demo_fmu in Hf. injection Hf as <-. reflexivity.
Defined.

(* ================================================================== *)
(** * The other functions of the script *)

(* ------------------------------------------------------------------ *)
(** ** [dict_reverser] *)

Lemma keys_swap (d : pydict string) :
  PyDict.keys (map (fun kv : string * string => (snd kv, fst kv)) d) = PyDict.values d.
Proof. unfold PyDict.keys, PyDict.values. rewrite map_map. reflexivity. Qed.

(** With [seen] empty, [not in seen] always holds: [seen] stays empty and
    each item [(k, v)] is stored as [v: k] in turn. *)
Lemma dict_reverser_loop_nil (items acc : pydict string) :
  dict_reverser_loop items [] acc =
  (PyDict.update acc (map (fun kv : string * string => (snd kv, fst kv)) items), []).
Proof.
  revert acc. induction items as [|[k v] items IH]; intros acc; simpl; [reflexivity|].
  rewrite IH. reflexivity.
Qed.

Lemma dict_reverser_of_list (d : pydict string) :
  dict_reverser d = PyDict.of_list (map (fun kv : string * string => (snd kv, fst kv)) d).
Proof. unfold dict_reverser. rewrite dict_reverser_loop_nil. reflexivity. Qed.

Lemma dict_reverser_get_last (d pre post : pydict string) (k v : string) :
  d = app pre ((k, v) :: post) -> ~ In v (PyDict.values post) ->
  PyDict.get (dict_reverser d) v = Some k.
Proof.
  intros -> Hv. rewrite dict_reverser_of_list, get_of_list, map_app, rev_app_distr.
  simpl. rewrite <- app_assoc, PyDictFacts.get_app, PyDictFacts.get_None.
  - simpl. rewrite String.eqb_refl. reflexivity.
  - rewrite PyDictFacts.keys_rev, keys_swap. intros Hin. apply Hv, in_rev, Hin.
Qed.

Lemma dict_reverser_get_none (d : pydict string) (v : string) :
  ~ In v (PyDict.values d) -> PyDict.get (dict_reverser d) v = None.
Proof.
  intros Hv. rewrite dict_reverser_of_list, get_of_list. apply PyDictFacts.get_None.
  rewrite PyDictFacts.keys_rev, keys_swap. intros Hin. apply Hv, in_rev, Hin.
Qed.

Lemma dict_reverser_inverse_helper (d : pydict string) (k v : string) :
  NoDup (PyDict.values d) -> PyDict.get d k = Some v ->
  PyDict.get (dict_reverser d) v = Some k.
Proof.
  intros Hnd Hg. apply PyDictFacts.get_In, in_split in Hg as [pre [post ->]].
  apply (dict_reverser_get_last _ pre post); [reflexivity|].
  unfold PyDict.values in Hnd. rewrite map_app in Hnd. simpl in Hnd.
  apply NoDup_remove_2 in Hnd. intros Hin. apply Hnd, in_or_app. right. exact Hin.
Qed.

(** X1: [dict_reverser(d)] maps each value of [d] to the LAST key that
    carries it ([seen] stays empty, so no item is skipped and later items
    overwrite earlier ones); a string that is no value of [d] is no key
    of the result. *)
Theorem dict_reverser_last_key (d : pydict string) :
  snd (dict_reverser_loop d [] []) = [] /\
  (forall pre post k v, d = app pre ((k, v) :: post) -> ~ In v (PyDict.values post) ->
     PyDict.get (dict_reverser d) v = Some k) /\
  (forall v, ~ In v (PyDict.values d) -> PyDict.get (dict_reverser d) v = None).
Proof.
  split; [rewrite dict_reverser_loop_nil; reflexivity|].
  split; [intros pre post k v; apply dict_reverser_get_last|apply dict_reverser_get_none].
Qed.

Lemma dict_reverser_last_key_witness :
  PyDict.get (dict_reverser [("a", "x"); ("b", "y"); ("c", "x")]) "x" = Some "c".
Proof.
  apply (proj1 (proj2 (dict_reverser_last_key [("a", "x"); ("b", "y"); ("c", "x")]))
           [("a", "x"); ("b", "y")] [] "c" "x"); [reflexivity|simpl; tauto].
Defined.

(** X2: when the values of [d] are distinct, [dict_reverser] inverts [d]:
    [dict_reverser(d)[d[k]] == k] for every key [k] of [d]. *)
Theorem dict_reverser_inverse (d : pydict string) (k v : string) :
  NoDup (PyDict.values d) -> PyDict.get d k = Some v ->
  PyDict.get (dict_reverser d) v = Some k.
Proof. apply dict_reverser_inverse_helper. Qed.

Lemma dict_reverser_inverse_witness :
  PyDict.get (dict_reverser batch_parLocation) "bioreactor.culture.Y" = Some "Y".
Proof.
  apply dict_reverser_inverse; [|vm_compute; reflexivity].
  vm_compute. repeat constructor; simpl; intros H; intuition discriminate.
Defined.

(* ------------------------------------------------------------------ *)
(** ** [disp()] *)

Lemma list_comp_index_missing {V} (d : pydict V) (ks : list string) (k : string) :
  In k ks -> PyDict.get d k = None -> list_comp (PyDict.index d) ks = Raise KeyError.
Proof.
  intros Hin Hk. induction ks as [|k0 ks IH]; [destruct Hin|].
  cbn [list_comp]. unfold PyDict.index at 1.
  destruct (PyDict.get d k0) eqn:E; cbn [bind]; [|reflexivity].
  destruct Hin as [<-|Hin]; [congruence|]. rewrite IH by exact Hin. reflexivity.
Qed.

Lemma list_comp_index_ok {V} (d : pydict V) (ks : list string) :
  (forall k, In k ks -> PyDict.get d k <> None) ->
  exists l, list_comp (PyDict.index d) ks = Ok l /\
            Forall2 (fun k v => PyDict.get d k = Some v) ks l.
Proof.
  induction ks as [|k0 ks IH]; intros H; [exists []; split; constructor|].
  destruct IH as [l [Hl Hf]]; [intros k Hk; apply H; right; exact Hk|].
  cbn [list_comp]. unfold PyDict.index at 1.
  destruct (PyDict.get d k0) as [v|] eqn:E; [|exfalso; apply (H k0); [left|]; auto].
  cbn [bind]. rewrite Hl. exists (v :: l). split; [reflexivity|constructor; auto].
Qed.

Lemma disp_mode_raise (row1 : string -> res pline) (row2 : option string -> string -> res pline)
    (cfg : config) (st : session) (name k : string) :
  In k (PyDict.keys (parDict st)) -> ~ In k (PyDict.keys (parLocation cfg)) ->
  disp_mode row1 row2 cfg st name = ([], Raise KeyError).
Proof.
  intros Hk Hl. unfold disp_mode.
  rewrite (list_comp_index_missing _ _ k Hk (PyDictFacts.get_None _ _ Hl)). reflexivity.
Qed.

Lemma disp_loop_skip (row : string -> res pline) (name : string) (locs : list string)
    (k : nat) (acc : list pline) :
  Forall (fun L => py_in name L = false) locs ->
  disp_loop row name locs k acc = (acc, Ok (k + length locs)).
Proof.
  intros H. revert k. induction H as [|L locs HL _ IH]; intros k; simpl.
  - rewrite Nat.add_0_r. reflexivity.
  - rewrite HL, IH. f_equal. f_equal. lia.
Qed.

Lemma disp_mode_nothing (row1 : string -> res pline) (row2 : option string -> string -> res pline)
    (cfg : config) (st : session) (name : string) :
  (forall k, In k (PyDict.keys (parDict st)) ->
     exists L, PyDict.get (parLocation cfg) k = Some L /\ py_in name L = false) ->
  length (PyDict.keys (parDict st)) < length (PyDict.keys (parLocation cfg)) ->
  disp_mode row1 row2 cfg st name = ([], Ok tt).
Proof.
  intros H Hlen. unfold disp_mode.
  destruct (list_comp_index_ok (parLocation cfg) (PyDict.keys (parDict st))) as [locs [Hl Hf]].
  { intros k Hk. destruct (H k Hk) as [L [HL _]]. congruence. }
  rewrite Hl, disp_loop_skip.
  - simpl. rewrite <- (Forall2_length Hf).
    destruct (Nat.eqb_spec (length (PyDict.keys (parDict st)))
                           (length (PyDict.keys (parLocation cfg)))); [lia|reflexivity].
  - apply Forall_forall. intros L HL.
    destruct (Forall2_in_r _ _ _ _ Hf HL) as [k [Hk HkL]].
    destruct (H k Hk) as [L' [HL' Hn]]. congruence.
Qed.


Lemma disp_loop_rows (row : string -> res pline) (P : string -> pline -> Prop)
    (pl : pydict string) (name : string) (ks locs : list string) :
  Forall2 (fun k L => PyDict.get pl k = Some L) ks locs ->
  (forall k L, In k ks -> PyDict.get pl k = Some L -> py_in name L = true ->
     exists l, row L = Ok l /\ P k l) ->
  forall k0 acc, exists lines k',
    disp_loop row name locs k0 acc = (app acc lines, Ok k') /\
    Forall2 P (disp_selected pl name ks) lines /\ k' <= k0 + length locs.
Proof.
  induction 1 as [|k L ks locs HkL _ IH]; intros Hrow k0 acc.
  - exists [], k0. rewrite app_nil_r. split; [reflexivity|split; [constructor|simpl; lia]].
  - simpl. unfold disp_selected at 1. simpl. rewrite HkL.
    destruct (py_in name L) eqn:Hin.
    + destruct (Hrow k L (or_introl eq_refl) HkL Hin) as [l [Hl Hp]]. rewrite Hl.
      destruct (IH (fun k' L' Hk' => Hrow k' L' (or_intror Hk')) k0 (app acc [l]))
        as [lines [k' [Hd [Hf Hle]]]].
      exists (l :: lines), k'. rewrite Hd, <- app_assoc. split; [reflexivity|].
      split; [constructor; assumption|lia].
    + destruct (IH (fun k' L' Hk' => Hrow k' L' (or_intror Hk')) (S k0) acc)
        as [lines [k' [Hd [Hf Hle]]]].
      exists lines, k'. split; [exact Hd|]. split; [exact Hf|lia].
Qed.

Lemma disp_mode_rows (row1 : string -> res pline) (row2 : option string -> string -> res pline)
    (P : string -> pline -> Prop) (cfg : config) (st : session) (name : string) :
  (forall k, In k (PyDict.keys (parDict st)) -> PyDict.get (parLocation cfg) k <> None) ->
  length (PyDict.keys (parDict st)) < length (PyDict.keys (parLocation cfg)) ->
  (forall k L, In k (PyDict.keys (parDict st)) -> PyDict.get (parLocation cfg) k = Some L ->
     py_in name L = true -> exists l, row1 L = Ok l /\ P k l) ->
  exists lines, disp_mode row1 row2 cfg st name = (lines, Ok tt) /\
    Forall2 P (disp_selected (parLocation cfg) name (PyDict.keys (parDict st))) lines.
Proof.
  intros Hloc Hlen Hrow. unfold disp_mode.
  destruct (list_comp_index_ok _ _ Hloc) as [locs [Hl Hf]]. rewrite Hl.
  destruct (disp_loop_rows row1 P _ name _ _ Hf Hrow 0 []) as [lines [k' [Hd [Hp Hle]]]].
  rewrite Hd. simpl. rewrite <- (Forall2_length Hf) in Hle.
  destruct (Nat.eqb_spec k' (length (PyDict.keys (parLocation cfg)))); [lia|].
  exists lines. split; [reflexivity|exact Hp].
Qed.

(** X3: [disp] in mode ['short'], ['long'] or ['location'] raises
    [KeyError] and prints nothing as soon as one key of [parDict] has no
    entry in [parLocation]: the location list is built before any row is
    printed. *)
Theorem disp_missing_location_raises (np_round : Q -> nat -> Q) (cfg : config)
    (st : session) (name : string) (decimals : nat) (mode k : string) :
  In mode ["short"; "long"; "location"] ->
  In k (PyDict.keys (parDict st)) -> ~ In k (PyDict.keys (parLocation cfg)) ->
  disp np_round cfg st name decimals mode = ([], Raise KeyError).
Proof.
  intros Hm Hk Hl. unfold disp. rewrite !(disp_mode_raise _ _ cfg st name k Hk Hl).
  destruct Hm as [<-|[<-|[<-|[]]]]; reflexivity.
Qed.

(** An [init] that adds a new [_start] key to [parDict] (one with no
    location) makes every later [disp] of these modes raise. *)
Lemma disp_missing_location_raises_witness :
  disp (fun q _ => q) batch_config
       (init batch_session [("foo_start", 1%Q)]) "Y" 2 "short" = ([], Raise KeyError).
Proof.
  apply (disp_missing_location_raises _ _ _ _ _ _ "foo_start");
    [simpl; tauto|vm_compute; tauto|vm_compute; intuition discriminate].
Defined.

(** X4: when no location of a [parDict] key contains [name] and
    [parDict] has fewer keys than [parLocation], [disp] prints nothing and
    returns normally: every location bumps [k], which stays below
    [len(parLocation)], so the second loop is never entered. *)
Theorem disp_no_match_silent (np_round : Q -> nat -> Q) (cfg : config) (st : session)
    (name : string) (decimals : nat) (mode : string) :
  (forall k, In k (PyDict.keys (parDict st)) ->
     exists L, PyDict.get (parLocation cfg) k = Some L /\ py_in name L = false) ->
  length (PyDict.keys (parDict st)) < length (PyDict.keys (parLocation cfg)) ->
  disp np_round cfg st name decimals mode = ([], Ok tt).
Proof.
  intros H Hlen. unfold disp.
  rewrite !(disp_mode_nothing _ _ cfg st name H Hlen).
  destruct (String.eqb mode "short"); [reflexivity|].
  destruct (String.eqb mode "long" || String.eqb mode "location"); reflexivity.
Qed.

(** [disp('VX_start')]: the key is no substring of any location. *)
Lemma disp_no_match_silent_witness :
  disp (fun q _ => q) batch_config batch_session "VX_start" 2 "short" = ([], Ok tt).
Proof.
  apply disp_no_match_silent; [|vm_compute; lia].
  intros k Hk. vm_compute in Hk.
  repeat (destruct Hk as [<-|Hk]; [eexists; split; vm_compute; reflexivity|]). destruct Hk.
Defined.

(** X5: in mode ['short'], when the locations are distinct, every
    [parDict] key has one, [parDict] is smaller than [parLocation] and
    [model_get] returns a number at each matching location, [disp]
    returns normally and prints, in the order of [parDict], one line
    [key : round(value)] for each key whose location contains [name]. *)
Theorem disp_short_rows (np_round : Q -> nat -> Q) (cfg : config) (st : session)
    (name : string) (decimals : nat) :
  NoDup (PyDict.values (parLocation cfg)) ->
  (forall k, In k (PyDict.keys (parDict st)) -> PyDict.get (parLocation cfg) k <> None) ->
  length (PyDict.keys (parDict st)) < length (PyDict.keys (parLocation cfg)) ->
  (forall k L, In k (PyDict.keys (parDict st)) -> PyDict.get (parLocation cfg) k = Some L ->
     py_in name L = true ->
     exists q, model_get (catalog cfg) (sim_res st) (start_values st) L = Ok (Some q)) ->
  exists lines, disp np_round cfg st name decimals "short" = (lines, Ok tt) /\
    Forall2 (fun k line => exists L q,
               PyDict.get (parLocation cfg) k = Some L /\
               model_get (catalog cfg) (sim_res st) (start_values st) L = Ok (Some q) /\
               line = [PStr k; PStr ":"; PNum (np_round q decimals)])
            (disp_selected (parLocation cfg) name (PyDict.keys (parDict st))) lines.
Proof.
  intros Hnd Hloc Hlen Hq. unfold disp. cbv zeta. rewrite String.eqb_refl.
  apply disp_mode_rows; [exact Hloc|exact Hlen|].
  intros k L Hk HL Hin. destruct (Hq k L Hk HL Hin) as [q Hmq].
  cbv beta. rewrite Hmq. cbn [bind]. unfold PyDict.index.
  rewrite (dict_reverser_inverse_helper _ _ _ Hnd HL). cbn [bind round_value].
  eexists; split; [reflexivity|]. exists L, q. auto.
Qed.

Lemma disp_short_rows_witness :
  exists lines, disp (fun q _ => q) batch_config batch_session "_start" 2 "short" = (lines, Ok tt) /\
    Forall2 (fun k line => exists L q,
               PyDict.get (parLocation batch_config) k = Some L /\
               model_get (catalog batch_config) (sim_res batch_session)
                         (start_values batch_session) L = Ok (Some q) /\
               line = [PStr k; PStr ":"; PNum q])
            (disp_selected (parLocation batch_config) "_start"
                           (PyDict.keys (parDict batch_session))) lines.
Proof.
  apply disp_short_rows.
  - vm_compute. repeat constructor; simpl; intros H; intuition discriminate.
  - intros k Hk. vm_compute in Hk.
    repeat (destruct Hk as [<-|Hk]; [vm_compute; discriminate|]). destruct Hk.
  - vm_compute. lia.
  - intros k L Hk HL Hin. vm_compute in Hk.
    repeat (destruct Hk as [<-|Hk];
            [vm_compute in HL; injection HL as <-; eexists; vm_compute; reflexivity|]).
    destruct Hk.
Defined.

(* ------------------------------------------------------------------ *)
(** ** [model_get()] on one variable *)

Lemma model_get_loop_skip (pre l : list mvar) (sr : option simres)
    (sv : option (pydict (option Q))) (n : string) (value : option (option Q)) :
  Forall (fun y => vname y <> n) pre ->
  model_get_loop (app pre l) sr sv n value = model_get_loop l sr sv n value.
Proof.
  intros H. revert value. induction H as [|y pre Hy _ IH]; intros value; [reflexivity|].
  simpl. destruct (String.eqb_spec (vname y) n); [contradiction|apply IH].
Qed.

Lemma model_get_unique (cat pre post : list mvar) (v : mvar) (sr : option simres)
    (sv : option (pydict (option Q))) :
  cat = app pre (v :: post) -> Forall (fun y => vname y <> vname v) (app pre post) ->
  model_get cat sr sv (vname v) = model_get_var sr sv v.
Proof.
  intros -> Hf. apply Forall_app in Hf as [Hpre Hpost]. unfold model_get.
  rewrite model_get_loop_skip by exact Hpre. simpl. rewrite String.eqb_refl.
  destruct (model_get_var sr sv v) as [x|e]; cbn [bind]; [|reflexivity].
  rewrite <- (app_nil_r post), model_get_loop_skip by exact Hpost. reflexivity.
Qed.

(** X6: [model_get] of a variable of causality ['parameter'] (the only
    one of its name) returns its [start] attribute as a float, whatever
    [sim_res] and [start_values] hold: the values [par()] stores and the
    results of [simu()] never show through it. *)
Theorem model_get_parameter_start (cat pre post : list mvar) (v : mvar)
    (sr : option simres) (sv : option (pydict (option Q))) :
  cat = app pre (v :: post) -> Forall (fun y => vname y <> vname v) (app pre post) ->
  causality v = "parameter" ->
  model_get cat sr sv (vname v) =
  match vstart v with
  | StNum q => Ok (Some q)
  | StStr _ => Raise ValueError
  | StNone => Raise TypeError
  end.
Proof.
  intros Hc Hu Hp. rewrite (model_get_unique _ _ _ _ sr sv Hc Hu).
  unfold model_get_var. rewrite Hp. destruct (vstart v); reflexivity.
Qed.

(** [model_get('bioreactor.culture.Y')] is [0.5], the FMU's start value,
    even with another value among the start values. *)
Lemma model_get_parameter_start_witness :
  model_get batch_catalog None (Some [("bioreactor.culture.Y", Some (3#5))])
            "bioreactor.culture.Y" = Ok (Some (1#2)).
Proof.
  apply (model_get_parameter_start batch_catalog (firstn 3 batch_catalog)
           (skipn 4 batch_catalog) (nth 3 batch_catalog (MVar "" "" "" StNone None)));
    [reflexivity| |reflexivity].
  vm_compute. repeat (apply Forall_cons; [discriminate|]). apply Forall_nil.
Defined.

(** X7: [model_get] of a continuous variable of causality ['local'] (the
    only one of its name): [None] before the first simulation
    ([start_values] unassigned, [NameError] caught); the value in
    [start_values] when the name is there; otherwise the last sample of
    its column of [sim_res], [None] when the column was not recorded,
    and [IndexError] when the column is empty. *)
Theorem model_get_continuous_local (cat pre post : list mvar) (v : mvar)
    (sr : option simres) (sv : option (pydict (option Q))) :
  cat = app pre (v :: post) -> Forall (fun y => vname y <> vname v) (app pre post) ->
  causality v = "local" -> variability v = "continuous" ->
  (sv = None -> model_get cat sr sv (vname v) = Ok None) /\
  (forall d x, sv = Some d -> PyDict.get d (vname v) = Some x ->
     model_get cat sr sv (vname v) = Ok x) /\
  (forall d r, sv = Some d -> PyDict.get d (vname v) = None -> sr = Some r ->
     (PyDict.get r (vname v) = None -> model_get cat sr sv (vname v) = Ok None) /\
     (PyDict.get r (vname v) = Some [] -> model_get cat sr sv (vname v) = Raise IndexError) /\
     (forall ts t, PyDict.get r (vname v) = Some (app ts [t]) ->
        model_get cat sr sv (vname v) = Ok (Some t))).
Proof.
  intros Hc Hu Hl Hv. rewrite (model_get_unique _ _ _ _ sr sv Hc Hu).
  unfold model_get_var. rewrite Hl, Hv. cbn [String.eqb Ascii.eqb Bool.eqb andb].
  split; [intros ->; reflexivity|]. split.
  - intros d x -> Hx. cbn [bind read_global].
    assert (Hm : PyDict.mem (vname v) d = true) by (apply mem_get; congruence).
    rewrite Hm. unfold PyDict.index. rewrite Hx. reflexivity.
  - intros d r -> Hx ->. cbn [bind read_global].
    assert (Hm : PyDict.mem (vname v) d = false).
    { destruct (PyDict.mem (vname v) d) eqn:E; [apply mem_get in E; contradiction|reflexivity]. }
    rewrite Hm. unfold simres_field.
    split; [intros ->; reflexivity|]. split; [intros ->; reflexivity|].
    intros ts t ->. cbn [bind]. unfold py_last. rewrite rev_app_distr. reflexivity.
Qed.

Lemma model_get_continuous_local_witness :
  model_get batch_catalog (Some [("bioreactor.V", [1; 2; 3]%Q)]) (Some [])
            "bioreactor.V" = Ok (Some 3%Q).
Proof.
  destruct (model_get_continuous_local batch_catalog (firstn 10 batch_catalog)
              (skipn 11 batch_catalog) (nth 10 batch_catalog (MVar "" "" "" StNone None))
              (Some [("bioreactor.V", [1; 2; 3]%Q)]) (Some []))
    as [_ [_ H]]; [reflexivity| |reflexivity|reflexivity|].
  - vm_compute. repeat (apply Forall_cons; [discriminate|]). apply Forall_nil.
  - apply (proj2 (proj2 (H [] _ eq_refl eq_refl eq_refl)) [1; 2]%Q). reflexivity.
Defined.

(* ------------------------------------------------------------------ *)
(** ** [model_get_variable_description()], [model_get_variable_unit()]
       and [describe_general()] *)

Lemma doc_filter_first (cat pre post : list mvar_doc) (x : mvar_doc) (loc : string) :
  cat = app pre (x :: post) ->
  Forall (fun y => py_in loc (vname (mvariable y)) = false) pre ->
  py_in loc (vname (mvariable x)) = true ->
  filter (fun y => py_in loc (vname (mvariable y))) cat =
  x :: filter (fun y => py_in loc (vname (mvariable y))) post.
Proof.
  intros -> Hpre Hx. rewrite filter_app. simpl. rewrite Hx.
  replace (filter (fun y => py_in loc (vname (mvariable y))) pre) with (@nil mvar_doc);
    [reflexivity|].
  induction Hpre as [|y pre Hy _ IH]; simpl; [reflexivity|]. rewrite Hy. exact IH.
Qed.

Lemma doc_first (cat pre post : list mvar_doc) (x : mvar_doc) (loc : string) :
  cat = app pre (x :: post) ->
  Forall (fun y => py_in loc (vname (mvariable y)) = false) pre ->
  py_in loc (vname (mvariable x)) = true ->
  model_get_variable_description cat loc = Ok (description x) /\
  model_get_variable_unit cat loc = Ok (vunit x).
Proof.
  intros Hc Hpre Hx. unfold model_get_variable_description, model_get_variable_unit.
  rewrite (doc_filter_first _ _ _ _ _ Hc Hpre Hx). split; reflexivity.
Qed.

(** X8: [model_get_variable_description(loc)] and
    [model_get_variable_unit(loc)] read the FIRST variable whose name
    contains [loc] as a substring (not one whose name equals it), and
    raise [IndexError] when no name contains [loc]; neither raises
    [FMUException], so the unit's [except FMUException] handler in
    [describe_general] is never taken. *)
Theorem model_get_variable_doc_first_match (cat : list mvar_doc) (loc : string) :
  (forall pre post x, cat = app pre (x :: post) ->
     Forall (fun y => py_in loc (vname (mvariable y)) = false) pre ->
     py_in loc (vname (mvariable x)) = true ->
     model_get_variable_description cat loc = Ok (description x) /\
     model_get_variable_unit cat loc = Ok (vunit x)) /\
  (Forall (fun y => py_in loc (vname (mvariable y)) = false) cat ->
     model_get_variable_description cat loc = Raise IndexError /\
     model_get_variable_unit cat loc = Raise IndexError) /\
  catch_fmu_exception (model_get_variable_unit cat loc) = model_get_variable_unit cat loc.
Proof.
  split; [intros pre post x; apply doc_first|]. split.
  - intros H. unfold model_get_variable_description, model_get_variable_unit.
    replace (filter (fun y => py_in loc (vname (mvariable y))) cat) with (@nil mvar_doc);
      [split; reflexivity|].
    induction H as [|y cat Hy _ IH]; simpl; [reflexivity|]. rewrite Hy. exact IH.
  - unfold model_get_variable_unit.
    destruct (filter (fun y => py_in loc (vname (mvariable y))) cat); reflexivity.
Qed.

(** ["bioreactor.V"] is found in ["bioreactor.V_start"], the first
    variable of the catalog. *)
Lemma model_get_variable_doc_first_match_witness :
  model_get_variable_description
    (MVarDoc (MVar "bioreactor.V_start" "parameter" "fixed" (StNum 1) None)
             (Some "initial volume") (Some "L")
     :: [MVarDoc (MVar "bioreactor.V" "local" "continuous" StNone None)
                 (Some "volume") (Some "L")])
    "bioreactor.V" = Ok (Some "initial volume").
Proof.
  refine (proj1 (proj1 (model_get_variable_doc_first_match _ "bioreactor.V")
                  [] _ _ eq_refl (Forall_nil _) _)).
  reflexivity.
Defined.

(** X9: [describe_general] shows a key of [parLocation] exactly as it
    shows its location: [describe(key)] and [describe(parLocation[key])]
    print the same, provided neither is ['time'] and the location is no
    key itself. *)
Theorem describe_general_key_as_location (np_round : Q -> nat -> Q) (cat : list mvar_doc)
    (pl : pydict string) (st : session) (k L : string) (decimals : nat) :
  k <> "time" -> L <> "time" -> PyDict.get pl k = Some L -> ~ In L (PyDict.keys pl) ->
  describe_general np_round cat pl st k decimals = describe_general np_round cat pl st L decimals.
Proof.
  intros Hk HL Hg Hn. unfold describe_general.
  destruct (String.eqb_spec k "time"); [contradiction|].
  destruct (String.eqb_spec L "time"); [contradiction|].
  assert (Hm : PyDict.mem k pl = true) by (apply mem_get; congruence).
  assert (Hm' : PyDict.mem L pl = false).
  { destruct (PyDict.mem L pl) eqn:E; [apply PyDictFacts.mem_In in E; contradiction|reflexivity]. }
  rewrite Hm, Hm'. unfold PyDict.index. rewrite Hg. reflexivity.
Qed.

Lemma describe_general_key_as_location_witness :
  describe_general (fun q _ => q) [] batch_parLocation batch_session "Y" 2 =
  describe_general (fun q _ => q) [] batch_parLocation batch_session "bioreactor.culture.Y" 2.
Proof.
  apply describe_general_key_as_location;
    [discriminate|discriminate|reflexivity|vm_compute; intuition discriminate].
Defined.

Lemma describe_general_plain (np_round : Q -> nat -> Q) (cat : list mvar_doc)
    (pl : pydict string) (st : session) (name : string) (decimals : nat) :
  name <> "time" -> ~ In name (PyDict.keys pl) ->
  describe_general np_round cat pl st name decimals =
  match describe_lookup np_round cat st name decimals with
  | Ok l => ([l], Ok tt)
  | Raise e => ([], Raise e)
  end.
Proof.
  intros Hn Hk. unfold describe_general.
  destruct (String.eqb_spec name "time"); [contradiction|].
  destruct (PyDict.mem name pl) eqn:E; [apply PyDictFacts.mem_In in E; contradiction|].
  reflexivity.
Qed.

(** X10: for a name that is neither ['time'] nor a key of [parLocation],
    whose [model_get] value is a number [q], [describe_general] prints
    one line: the description of the first variable whose name contains
    [name], [:], [np.round(q, decimals)], and its unit in brackets unless
    the unit is [''] (a unit [None] is printed as [[ None ]]). *)
Theorem describe_general_line (np_round : Q -> nat -> Q) (cat pre post : list mvar_doc)
    (x : mvar_doc) (pl : pydict string) (st : session) (name : string) (decimals : nat)
    (q : Q) :
  name <> "time" -> ~ In name (PyDict.keys pl) ->
  cat = app pre (x :: post) ->
  Forall (fun y => py_in name (vname (mvariable y)) = false) pre ->
  py_in name (vname (mvariable x)) = true ->
  model_get (map mvariable cat) (sim_res st) (start_values st) name = Ok (Some q) ->
  describe_general np_round cat pl st name decimals =
  ([if match vunit x with Some u => String.eqb u "" | None => false end
    then [py_opt_str (description x); PStr ":"; PNum (np_round q decimals)]
    else [py_opt_str (description x); PStr ":"; PNum (np_round q decimals);
          PStr "["; py_opt_str (vunit x); PStr "]"]], Ok tt).
Proof.
  intros Hn Hk Hc Hpre Hx Hq. rewrite describe_general_plain by assumption.
  unfold describe_lookup. destruct (doc_first _ _ _ _ _ Hc Hpre Hx) as [Hd Hu].
  rewrite Hd, Hq, Hu. cbn [bind catch_fmu_exception round_value].
  destruct (vunit x) as [[|c s]|]; reflexivity.
Qed.

Lemma describe_general_line_witness :
  describe_general (fun q _ => q)
    [MVarDoc (MVar "bioreactor.culture.mu" "local" "continuous" StNone None)
             (Some "specific growth rate") (Some "1/h")]
    batch_parLocation
    (with_start_values batch_session [("bioreactor.culture.mu", Some 1%Q)])
    "bioreactor.culture.mu" 2 =
  ([[PStr "specific growth rate"; PStr ":"; PNum 1; PStr "["; PStr "1/h"; PStr "]"]], Ok tt).
Proof.
  rewrite (describe_general_line (fun q _ => q) _ [] []
             (MVarDoc (MVar "bioreactor.culture.mu" "local" "continuous" StNone None)
                      (Some "specific growth rate") (Some "1/h"))
             batch_parLocation _ "bioreactor.culture.mu" 2 1%Q).
  - reflexivity.
  - discriminate.
  - vm_compute. intuition discriminate.
  - reflexivity.
  - apply Forall_nil.
  - reflexivity.
  - vm_compute. reflexivity.
Defined.



(* ------------------------------------------------------------------ *)
(** ** [model_component()] and [describe_parts()] *)

Lemma string_get_app_length (p s : string) (c : ascii) :
  String.get (String.length p) (p ++ String c s) = Some c.
Proof. induction p as [|a p IH]; simpl; [reflexivity|exact IH]. Qed.

Lemma append_String (p s : string) (c : ascii) :
  (p ++ String c s)%string = ((p ++ String c "") ++ s)%string.
Proof. rewrite <- PyStrFacts.append_assoc. reflexivity. Qed.

Lemma string_get_lt (s : string) (i : nat) :
  i < String.length s -> exists c, String.get i s = Some c.
Proof.
  revert i. induction s as [|a s IH]; intros i Hi; simpl in Hi; [lia|].
  destruct i as [|i]; simpl; [eexists; reflexivity|]. apply IH. lia.
Qed.

Lemma model_component_loop_spec (q : string) :
  forall fuel vn i pfx c r,
  Forall (fun a => (ascii_eqb a "."%char || ascii_eqb a "("%char) = false)
         (list_ascii_of_string q) ->
  (r = ""%string \/
   exists d r', r = String d r' /\ (ascii_eqb d "."%char || ascii_eqb d "("%char) = true) ->
  String.length q < fuel ->
  vn = (pfx ++ String c (q ++ r))%string -> i = String.length pfx ->
  model_component_loop fuel vn i pfx = Ok (pfx ++ String c q)%string.
Proof.
  induction q as [|a q IH]; intros fuel vn i pfx c r Hq Hr Hf Hvn Hi;
    (destruct fuel as [|fuel]; [simpl in Hf; lia|]); cbn [model_component_loop].
  all: unfold py_get at 1; rewrite Hvn, Hi, string_get_app_length; cbn [bind].
  all: rewrite PyStrFacts.length_append; cbn [String.length].
  - destruct Hr as [->|[d [r' [-> Hd]]]].
    + simpl. replace (String.length pfx + 1 - 1) with (String.length pfx) by lia.
      rewrite Nat.eqb_refl. reflexivity.
    + rewrite (proj2 (Nat.eqb_neq _ _)) by (rewrite ?PyStrFacts.length_append; simpl; lia).
      unfold py_get. cbn [append]. rewrite (append_String pfx (String d r') c).
      replace (String.length pfx + 1) with (String.length (pfx ++ String c ""))
        by (rewrite PyStrFacts.length_append; simpl; lia).
      rewrite string_get_app_length. cbn [bind]. rewrite Hd. reflexivity.
  - inversion Hq as [|? ? Ha Hq']; subst.
    rewrite (proj2 (Nat.eqb_neq _ _)) by (rewrite ?PyStrFacts.length_append; simpl; lia).
    unfold py_get. cbn [append]. rewrite (append_String pfx (String a (q ++ r)) c).
    replace (String.length pfx + 1) with (String.length (pfx ++ String c ""))
      by (rewrite PyStrFacts.length_append; simpl; lia).
    rewrite string_get_app_length. cbn [bind]. rewrite Ha.
    rewrite (IH fuel _ _ (pfx ++ String c "") a r Hq' Hr ltac:(simpl in Hf; lia)
               eq_refl eq_refl).
    rewrite <- (append_String pfx (String a q) c). reflexivity.
Qed.

Lemma model_component_loop_ok (fuel : nat) (vn : string) :
  forall i name, i < String.length vn -> exists s, model_component_loop fuel vn i name = Ok s.
Proof.
  induction fuel as [|fuel IH]; intros i name Hi; [eexists; reflexivity|].
  cbn [model_component_loop]. destruct (string_get_lt vn i Hi) as [c Hc].
  unfold py_get at 1. rewrite Hc. cbn [bind].
  destruct (Nat.eqb_spec i (String.length vn - 1)); [eexists; reflexivity|].
  destruct (string_get_lt vn (i + 1) ltac:(lia)) as [c' Hc'].
  unfold py_get. rewrite Hc'. cbn [bind].
  destruct (ascii_eqb c' "."%char || ascii_eqb c' "("%char); [eexists; reflexivity|].
  apply IH. lia.
Qed.

Lemma model_component_ok (vn : string) :
  vn <> ""%string -> exists s, model_component vn = Ok s.
Proof.
  intros Hvn. destruct vn as [|c0 rest]; [contradiction|]. unfold model_component.
  unfold py_get at 1. cbn [String.get bind].
  destruct (negb (ascii_eqb c0 "_"%char)).
  - destruct (model_component_loop_ok (String.length (String c0 rest)) (String c0 rest) 0 ""
                ltac:(simpl; lia)) as [s Hs].
    rewrite Hs. cbn [bind]. eexists; reflexivity.
  - cbn [bind]. eexists; reflexivity.
Qed.

(** X12: [model_component(variable_name)] is the prefix of the name up to
    (not including) the first ['.'] or ['('] after its first character,
    or the whole name when there is none; it is [''] for a name that
    starts with ['_'] and for the prefixes ['der'] and ['temp_1'] to
    ['temp_7']; it raises [IndexError] on the empty name and on no other
    name. *)
Theorem model_component_prefix :
  model_component "" = Raise IndexError /\
  (forall rest, model_component (String "_" rest) = Ok "") /\
  (forall c q r, c <> "_"%char ->
     Forall (fun a => (ascii_eqb a "."%char || ascii_eqb a "("%char) = false)
            (list_ascii_of_string q) ->
     (r = ""%string \/
      exists d r', r = String d r' /\ (ascii_eqb d "."%char || ascii_eqb d "("%char) = true) ->
     model_component (String c (q ++ r)) =
     Ok (if existsb (String.eqb (String c q)) component_dropped then "" else String c q)) /\
  (forall vn, vn <> ""%string -> exists s, model_component vn = Ok s).
Proof.
  split; [reflexivity|]. split; [intros rest; reflexivity|]. split; [|exact model_component_ok].
  intros c q r Hc Hq Hr. unfold model_component. unfold py_get at 1. cbn [String.get bind].
  replace (ascii_eqb c "_"%char) with false
    by (symmetry; unfold ascii_eqb; apply Ascii.eqb_neq; exact Hc).
  cbn [negb].
  rewrite (model_component_loop_spec q (String.length (String c (q ++ r))) (String c (q ++ r))
             0 "" c r Hq Hr ltac:(simpl; rewrite PyStrFacts.length_append; lia) eq_refl eq_refl).
  reflexivity.
Qed.

Lemma model_component_prefix_witness :
  model_component "bioreactor.culture.Y" = Ok "bioreactor" /\
  model_component "der(bioreactor.m[1])" = Ok "".
Proof.
  split.
  - apply (proj1 (proj2 (proj2 model_component_prefix)) "b"%char "ioreactor" ".culture.Y").
    + discriminate.
    + vm_compute. repeat constructor.
    + right. eexists _, _. split; [reflexivity|reflexivity].
  - apply (proj1 (proj2 (proj2 model_component_prefix)) "d"%char "er" "(bioreactor.m[1])").
    + discriminate.
    + vm_compute. repeat constructor.
    + right. eexists _, _. split; [reflexivity|reflexivity].
Defined.

Lemma describe_parts_loop_ok (vs l l' : list string) :
  describe_parts_loop vs l = (l', Ok tt) ->
  (exists added, l' = app l added /\ NoDup added /\
     forall a, In a added ->
       ~ In a l /\ ~ In a parts_ignored /\ exists v, In v vs /\ model_component v = Ok a) /\
  (forall v, In v vs -> exists c, model_component v = Ok c /\ (In c l' \/ In c parts_ignored)).
Proof.
  revert l. induction vs as [|v vs IH]; intros l H; cbn [describe_parts_loop] in H.
  - injection H as <-. split; [|intros v []].
    exists []. rewrite app_nil_r. split; [reflexivity|]. split; [constructor|intros a []].
  - destruct (model_component v) as [c|e] eqn:Ec; [|discriminate].
    destruct (negb (existsb (String.eqb c) l) && negb (existsb (String.eqb c) parts_ignored))
      eqn:Hb.
    + apply andb_true_iff in Hb as [H1 H2]. apply negb_true_iff, existsb_eqb_notIn in H1, H2.
      destruct (IH _ H) as [[added [Hl' [Hnd Hadd]]] Hall].
      split.
      * exists (c :: added). split; [rewrite Hl', <- app_assoc; reflexivity|]. split.
        -- constructor; [|exact Hnd]. intros Hc. destruct (Hadd c Hc) as [Hn _].
           apply Hn, in_or_app. right. left. reflexivity.
        -- intros a [<-|Ha]; [split; [exact H1|split; [exact H2|exists v; split; [left|]; auto]]|].
           destruct (Hadd a Ha) as [Hn [Hi [w [Hw Hwa]]]].
           split; [intros Hl; apply Hn, in_or_app; left; exact Hl|].
           split; [exact Hi|exists w; split; [right|]; auto].
      * intros w [<-|Hw]; [|apply Hall, Hw].
        exists c. split; [exact Ec|left]. rewrite Hl'. apply in_or_app. left.
        apply in_or_app. right. left. reflexivity.
    + destruct (IH _ H) as [[added [Hl' [Hnd Hadd]]] Hall]. split.
      * exists added. split; [exact Hl'|]. split; [exact Hnd|].
        intros a Ha. destruct (Hadd a Ha) as [Hn [Hi [w [Hw Hwa]]]].
        split; [exact Hn|]. split; [exact Hi|exists w; split; [right|]; auto].
      * intros w [<-|Hw]; [|apply Hall, Hw].
        exists c. split; [exact Ec|].
        apply andb_false_iff in Hb as [H1|H1]; apply negb_false_iff, existsb_eqb_In in H1.
        -- left. rewrite Hl'. apply in_or_app. left. exact H1.
        -- right. exact H1.
Qed.

Lemma describe_parts_loop_raise (vs l l' : list string) (e : pyexn) :
  describe_parts_loop vs l = (l', Raise e) -> e = IndexError /\ In ""%string vs.
Proof.
  revert l. induction vs as [|v vs IH]; intros l H; cbn [describe_parts_loop] in H; [discriminate|].
  destruct (model_component v) as [c|e'] eqn:Ec.
  - destruct (_ && _); destruct (IH _ H) as [He Hin]; (split; [exact He|right; exact Hin]).
  - injection H as _ <-. destruct (string_dec v "") as [->|Hv].
    + split; [injection Ec as <-; reflexivity|left; reflexivity].
    + destruct (model_component_ok v Hv) as [s Hs]. congruence.
Qed.

Lemma describe_parts_loop_stable (vs l : list string) :
  (forall v, In v vs -> exists c, model_component v = Ok c /\ (In c l \/ In c parts_ignored)) ->
  describe_parts_loop vs l = (l, Ok tt).
Proof.
  induction vs as [|v vs IH]; intros H; [reflexivity|]. cbn [describe_parts_loop].
  destruct (H v (or_introl eq_refl)) as [c [Ec Hc]]. rewrite Ec.
  replace (negb (existsb (String.eqb c) l) && negb (existsb (String.eqb c) parts_ignored))
    with false.
  - apply IH. intros w Hw. apply H. right. exact Hw.
  - destruct Hc as [Hc|Hc]; apply existsb_eqb_In in Hc; rewrite Hc;
      [reflexivity|symmetry; apply andb_false_r].
Qed.

(** X13: [describe_parts(component_list)] only appends to the list it is
    given: when it returns, the list is the old one followed by new,
    distinct components, none of them already listed or ignored, each the
    [model_component] of some variable; and every component of a
    variable that is not ignored is then in the list.  It raises only
    [IndexError], and only when a variable has the empty name. *)
Theorem describe_parts_appends (cat : list mvar) (l : list string) :
  (forall l', describe_parts cat l = (l', Ok tt) ->
     (exists added, l' = app l added /\ NoDup added /\
        forall a, In a added ->
          ~ In a l /\ ~ In a parts_ignored /\
          exists v, In v (map vname cat) /\ model_component v = Ok a) /\
     (forall v c, In v (map vname cat) -> model_component v = Ok c -> ~ In c parts_ignored ->
        In c l')) /\
  (forall l' e, describe_parts cat l = (l', Raise e) ->
     e = IndexError /\ In ""%string (map vname cat)).
Proof.
  unfold describe_parts. split; [|intros l' e; apply describe_parts_loop_raise].
  intros l' H. destruct (describe_parts_loop_ok _ _ _ H) as [Hadd Hall].
  split; [exact Hadd|]. intros v c Hv Hc Hi.
  destruct (Hall v Hv) as [c' [Hc' [Hin|Hin]]]; rewrite Hc in Hc'; injection Hc' as <-;
    [exact Hin|contradiction].
Qed.

Lemma describe_parts_appends_witness :
  describe_parts batch_catalog ["bioreactor"] = (["bioreactor"; "liquidphase"], Ok tt) /\
  In "liquidphase"%string ["bioreactor"; "liquidphase"].
Proof.
  assert (H : describe_parts batch_catalog ["bioreactor"] = (["bioreactor"; "liquidphase"], Ok tt))
    by (vm_compute; reflexivity).
  split; [exact H|].
  apply (proj2 (proj1 (describe_parts_appends batch_catalog ["bioreactor"]) _ H)
           "liquidphase.mw[1]").
  - vm_compute. tauto.
  - vm_compute. reflexivity.
  - vm_compute. intuition discriminate.
Defined.

(** X14: [describe_parts] changes the list it extends once only: called
    again with the list it produced (as [describe('parts')] does with the
    global [component_list_minimum]), it adds nothing. *)
Theorem describe_parts_idempotent (cat : list mvar) (l l' : list string) :
  describe_parts cat l = (l', Ok tt) -> describe_parts cat l' = (l', Ok tt).
Proof.
  unfold describe_parts. intros H. apply describe_parts_loop_stable.
  exact (proj2 (describe_parts_loop_ok _ _ _ H)).
Qed.

Lemma describe_parts_idempotent_witness :
  describe_parts batch_catalog ["bioreactor"; "liquidphase"] =
  (["bioreactor"; "liquidphase"], Ok tt).
Proof. apply (describe_parts_idempotent _ ["bioreactor"]). vm_compute. reflexivity. Defined.

(* ------------------------------------------------------------------ *)
(** ** [simu()]: a [parDict] key without a location *)

Lemma index_raise {V} (d : pydict V) (k : string) (e : pyexn) :
  PyDict.index d k = Raise e -> e = KeyError.
Proof. unfold PyDict.index. destruct (PyDict.get d k); congruence. Qed.

Lemma del_raise {V} (d : pydict V) (k : string) (e : pyexn) :
  PyDict.del d k = Raise e -> e = KeyError.
Proof. unfold PyDict.del. destruct (PyDict.mem k d); congruence. Qed.

Lemma dict_comp_raise_key {V} (f : string -> res (string * V)) (ks : list string)
    (k : string) (acc : pydict V) :
  (forall k' e, In k' ks -> f k' = Raise e -> e = KeyError) ->
  In k ks -> f k = Raise KeyError -> dict_comp f ks acc = Raise KeyError.
Proof.
  intros Hf Hk Hfk. revert acc. induction ks as [|k0 ks IH]; intros acc; [destruct Hk|].
  cbn [dict_comp]. destruct (f k0) as [kv|e] eqn:E; cbn [bind].
  - destruct Hk as [<-|Hk]; [congruence|].
    apply IH; [intros k' e Hk'; apply Hf; right; exact Hk'|exact Hk].
  - rewrite (Hf k0 e (or_introl eq_refl) E). reflexivity.
Qed.

Lemma reduce_raise_key (cfg : config) (ks : list string) (k : string)
    (pdr : pydict Q) (plr : pydict string) :
  In k ks -> PyDict.get (parLocation cfg) k = None -> reduce cfg ks pdr plr = Raise KeyError.
Proof.
  intros Hk Hn. revert pdr plr. induction ks as [|key ks IH]; intros pdr plr; [destruct Hk|].
  cbn [reduce]. unfold PyDict.index at 1.
  destruct (PyDict.get (parLocation cfg) key) as [l|] eqn:E; cbn [bind]; [|reflexivity].
  assert (Hk' : In k ks) by (destruct Hk as [<-|Hk]; [congruence|exact Hk]).
  destruct (existsb (String.eqb l) (PyDict.values (stateDictInitial cfg))).
  - destruct (PyDict.del pdr key) as [pdr'|e] eqn:E1; cbn [bind];
      [|apply del_raise in E1; subst; reflexivity].
    destruct (PyDict.del plr key) as [plr'|e] eqn:E2; cbn [bind];
      [|apply del_raise in E2; subst; reflexivity].
    apply IH, Hk'.
  - apply IH, Hk'.
Qed.

(** X15: when a key of [parDict] has no entry in [parLocation] (e.g. a
    new [_start] key added by [init()]), [simu] in a fresh mode, or in a
    continued mode once the cursor is set, raises [KeyError] while
    building [start_values]: the FMU is not called and the session is
    left exactly as it was. *)
Theorem simu_missing_location_raises (cfg : config) (fmu : invocation -> option simres)
    (diagrams : list string) (T : Q) (mode k : string) (st : session) :
  In k (PyDict.keys (parDict st)) -> ~ In k (PyDict.keys (parLocation cfg)) ->
  fresh_mode mode = true \/ (cont_mode mode = true /\ Qeq_bool (prevFinalTime st) 0 = false) ->
  simu cfg fmu diagrams T mode st = (st, Raise KeyError).
Proof.
  intros Hk Hl Hm. apply PyDictFacts.get_None in Hl. unfold simu.
  destruct Hm as [Hf|[Hc Hp]].
  - rewrite Hf. unfold fresh_start_values.
    rewrite (dict_comp_raise_key _ _ k); [reflexivity| |exact Hk|].
    + intros k' e _. destruct (PyDict.index (parLocation cfg) k') eqn:E1; cbn [bind];
        [|apply index_raise in E1; congruence].
      destruct (PyDict.index (parDict st) k') eqn:E2; cbn [bind];
        [discriminate|apply index_raise in E2; congruence].
    + unfold PyDict.index at 1. rewrite Hl. reflexivity.
  - destruct (fresh_mode mode) eqn:Hf.
    + rewrite (fresh_not_cont _ Hf) in Hc. discriminate.
    + rewrite Hc, Hp. unfold cont_start_values.
      rewrite (reduce_raise_key cfg _ k _ _ Hk Hl). reflexivity.
Qed.

(** A fresh [simu()] after [init(foo_start=1)] *)
Lemma simu_missing_location_raises_witness :
  simu batch_config demo_fmu batch_diagrams 10 "init" (init batch_session [("foo_start", 1%Q)]) =
  (init batch_session [("foo_start", 1%Q)], Raise KeyError).
Proof.
  apply (simu_missing_location_raises _ _ _ _ _ "foo_start").
  - vm_compute. tauto.
  - vm_compute. intuition discriminate.
  - left. reflexivity.
Defined.

(* ------------------------------------------------------------------ *)
(** ** [simu()]: the state values stored after a run *)

Lemma feedback_ok (cat : list mvar) (ks : list string) (st st' : session) :
  feedback cat ks st = (st', Ok tt) ->
  sim_res st' = sim_res st /\ start_values st' = start_values st /\
  (forall k, In k (PyDict.keys (stateDict st')) <-> In k (PyDict.keys (stateDict st)) \/ In k ks) /\
  (forall k, In k ks -> exists v, model_get cat (sim_res st) (start_values st) k = Ok v /\
                                  PyDict.get (stateDict st') k = Some v) /\
  (forall k, ~ In k ks -> PyDict.get (stateDict st') k = PyDict.get (stateDict st) k).
Proof.
  revert st. induction ks as [|key ks IH]; intros st H; cbn [feedback] in H.
  - injection H as <-. split; [reflexivity|split; [reflexivity|]].
    split; [intros k; simpl; tauto|split; [intros k []|reflexivity]].
  - destruct (model_get cat (sim_res st) (start_values st) key) as [v|e] eqn:Ev; [|discriminate].
    destruct (IH _ H) as [Hs [Hv [Hk [Hin Hout]]]].
    unfold with_stateDict in Hs, Hv, Hk, Hin, Hout.
    cbn [sim_res start_values stateDict] in Hs, Hv, Hk, Hin, Hout.
    split; [exact Hs|split; [exact Hv|]]. split.
    { intros k. rewrite Hk, PyDictFacts.keys_set. simpl.
      split; intros HH; repeat destruct HH as [HH|HH]; subst; tauto. }
    split.
    + intros k Hk'. destruct (in_dec string_dec k ks) as [Hks|Hks]; [apply Hin, Hks|].
      destruct Hk' as [<-|Hk']; [|contradiction].
      exists v. split; [exact Ev|]. rewrite (Hout _ Hks). cbn [stateDict].
      rewrite PyDictFacts.get_set, String.eqb_refl. reflexivity.
    + intros k Hk'. rewrite (Hout k (fun H' => Hk' (or_intror H'))). cbn [stateDict].
      rewrite PyDictFacts.get_set. destruct (String.eqb_spec k key) as [->|_];
        [exfalso; apply Hk'; left; reflexivity|reflexivity].
Qed.

Lemma run_fmu_after (cfg : config) (fmu : invocation -> option simres)
    (diagrams : list string) (T t0 t1 : Q) (sv : pydict (option Q)) (st st' : session)
    (r0 : res unit) (inv : invocation) (rr : simres) :
  run_fmu cfg fmu diagrams T t0 t1 sv st = (st', r0) ->
  calls st' = inv :: calls st -> fmu inv = Some rr ->
  inv_start_values inv = sv /\ after_run cfg (add_call (with_start_values st sv) inv) rr = (st', r0).
Proof.
  unfold run_fmu. intros H Hc Hf.
  destruct (Qeq_bool (ncp cfg) 0).
  - injection H as <- _. exfalso. exact (cons_neq _ _ (eq_sym Hc)).
  - set (inv0 := Invocation _ _ _ _ _) in H.
    destruct (fmu inv0) as [r|] eqn:Ef.
    + pose proof (after_run_calls cfg (add_call (with_start_values st sv) inv0) r) as Hc'.
      rewrite H in Hc'. simpl in Hc'. rewrite Hc in Hc'. injection Hc' as ->.
      rewrite Hf in Ef. injection Ef as ->. split; [reflexivity|exact H].
    + injection H as <- _. simpl in Hc. injection Hc as ->. congruence.
Qed.

(** X16: after a [simu] call that ran the FMU once (invocation [inv],
    result [r]) and returned normally, [sim_res] is [r], [start_values]
    holds the start values passed to the FMU, the cursor
    [prevFinalTime] is the last sample of [r['time']], [stateDict] has
    the same keys as before, and each key holds what [model_get] gives
    for it on [r] and those start values. *)
Theorem simu_stores_final_state (cfg : config) (fmu : invocation -> option simres)
    (diagrams : list string) (T : Q) (mode : string) (st st' : session)
    (inv : invocation) (r : simres) :
  simu cfg fmu diagrams T mode st = (st', Ok tt) ->
  calls st' = inv :: calls st -> fmu inv = Some r ->
  sim_res st' = Some r /\ start_values st' = Some (inv_start_values inv) /\
  (exists ts, PyDict.get r "time" = Some ts /\ py_last ts = Ok (prevFinalTime st')) /\
  (forall k, In k (PyDict.keys (stateDict st')) <-> In k (PyDict.keys (stateDict st))) /\
  (forall k, In k (PyDict.keys (stateDict st)) ->
     exists v, model_get (catalog cfg) (Some r) (Some (inv_start_values inv)) k = Ok v /\
               PyDict.get (stateDict st') k = Some v).
Proof.
  intros H Hc Hf.
  assert (Hrun : exists t0 t1 sv, run_fmu cfg fmu diagrams T t0 t1 sv st = (st', Ok tt)).
  { unfold simu in H. destruct (fresh_mode mode).
    - destruct (fresh_start_values cfg st) as [sv|e]; [|discriminate].
      exists 0%Q, T, sv. exact H.
    - destruct (cont_mode mode).
      + destruct (Qeq_bool (prevFinalTime st) 0).
        * injection H as <-. exfalso. exact (cons_neq _ _ (eq_sym Hc)).
        * destruct (cont_start_values cfg st) as [sv|e]; [|discriminate].
          eexists _, _, sv. exact H.
      + injection H as <-. exfalso. exact (cons_neq _ _ (eq_sym Hc)). }
  destruct Hrun as [t0 [t1 [sv Hrun]]].
  destruct (run_fmu_after _ _ _ _ _ _ _ _ _ _ _ _ Hrun Hc Hf) as [Hsv Ha]. subst sv.
  unfold after_run in Ha.
  destruct (feedback _ _ _) as [st3 fr] eqn:Efb.
  destruct fr as [[]|e]; [|discriminate].
  destruct (bind (simres_field r "time") py_last) as [t|e] eqn:Et; [|discriminate].
  injection Ha as <-.
  destruct (feedback_ok _ _ _ _ Efb) as [Hs [Hv [Hk [Hin _]]]].
  cbn [sim_res start_values stateDict with_sim_res add_call with_start_values
       with_prevFinalTime prevFinalTime] in *.
  split; [exact Hs|split; [exact Hv|]]. split.
  { unfold simres_field in Et. destruct (PyDict.get r "time") as [ts|]; [|discriminate].
    exists ts. split; [reflexivity|exact Et]. }
  split; [intros k; rewrite Hk; tauto|].
  exact Hin.
Qed.

(** A fresh run of the batch with [demo_fmu]: the biomass state
    ["bioreactor.m[1]"] ends at [1 + 10], the last sample of its column. *)
Lemma simu_stores_final_state_witness :
  PyDict.get (stateDict (fst (simu batch_config demo_fmu batch_diagrams 10 "init" batch_session)))
             "bioreactor.m[1]" = Some (Some 11%Q).
Proof.
  destruct (simu_stores_final_state batch_config demo_fmu batch_diagrams 10 "init"
              batch_session (fst (simu batch_config demo_fmu batch_diagrams 10 "init" batch_session))
              (hd (Invocation 0 0 0 [] [])
                  (calls (fst (simu batch_config demo_fmu batch_diagrams 10 "init" batch_session))))
              (match demo_fmu (hd (Invocation 0 0 0 [] [])
                  (calls (fst (simu batch_config demo_fmu batch_diagrams 10 "init" batch_session))))
               with Some r => r | None => [] end))
    as [_ [_ [_ [_ H]]]].
  - vm_compute. reflexivity.
  - vm_compute. reflexivity.
  - vm_compute. reflexivity.
  - destruct (H "bioreactor.m[1]") as [v [Hm Hg]]; [vm_compute; tauto|].
    rewrite Hg. vm_compute in Hm. injection Hm as <-. reflexivity.
Defined.

(* ------------------------------------------------------------------ *)
(** ** [par()]: the keys of the store *)

(** X17: [par] never adds nor removes a key of [parDict]: a key is in the
    store after [par(...)] exactly when it was before.  (Unlike [init],
    it cannot create a key without a location.) *)
Theorem par_keeps_keys (cfg : config) (st : session) (u : pydict Q) (k : string) :
  In k (PyDict.keys (parDict (fst (par cfg st u)))) <-> In k (PyDict.keys (parDict st)).
Proof.
  rewrite <- !PyDictFacts.get_Some_keys, par_parDict.
  destruct (PyDict.mem k (parDict st)) eqn:E1; destruct (PyDict.mem k u) eqn:E2; cbn [andb];
    try reflexivity.
  apply mem_get in E1, E2. tauto.
Qed.

(* ------------------------------------------------------------------ *)
(** ** [simu()]: the start values of a fresh run *)

Lemma values_inj (d : pydict string) (k1 k2 v : string) :
  NoDup (PyDict.values d) -> In (k1, v) d -> In (k2, v) d -> k1 = k2.
Proof.
  induction d as [|[k' v'] d IH]; intros Hnd H1 H2; [destruct H1|].
  inversion Hnd as [|? ? Hn Hd]; subst.
  destruct H1 as [E1|H1]; destruct H2 as [E2|H2].
  - congruence.
  - injection E1 as <- <-. exfalso. apply Hn, in_map_iff. exists (k2, v'). auto.
  - injection E2 as <- <-. exfalso. apply Hn, in_map_iff. exists (k1, v'). auto.
  - apply IH; assumption.
Qed.

Lemma get_all_same {V} (l : pydict V) (k : string) (x : V) :
  In (k, x) l -> (forall y, In (k, y) l -> y = x) -> PyDict.get l k = Some x.
Proof.
  induction l as [|[k1 v1] l IH]; intros Hin Hall; [destruct Hin|]. simpl.
  destruct (String.eqb_spec k k1) as [<-|Hne].
  - f_equal. apply Hall. left. reflexivity.
  - apply IH; [destruct Hin as [[= -> _]|Hin]; [contradiction|exact Hin]|].
    intros y Hy. apply Hall. right. exact Hy.
Qed.

Lemma fresh_pair_ok (pl : pydict string) (pd : pydict Q) (k L : string) (x : option Q) :
  (let* l := PyDict.index pl k in let* v := PyDict.index pd k in Ok (l, Some v)) = Ok (L, x) ->
  PyDict.get pl k = Some L /\ exists v, PyDict.get pd k = Some v /\ x = Some v.
Proof.
  unfold PyDict.index. destruct (PyDict.get pl k), (PyDict.get pd k); cbn [bind];
    intros H; try discriminate.
  injection H as <- <-. split; [reflexivity|eexists; split; reflexivity].
Qed.

Lemma fresh_start_values_spec (cfg : config) (st : session) (sv : pydict (option Q)) :
  NoDup (PyDict.values (parLocation cfg)) ->
  fresh_start_values cfg st = Ok sv ->
  (forall k L v, PyDict.get (parDict st) k = Some v -> PyDict.get (parLocation cfg) k = Some L ->
     PyDict.get sv L = Some (Some v)) /\
  (forall L x, PyDict.get sv L = Some x ->
     exists k v, PyDict.get (parDict st) k = Some v /\ PyDict.get (parLocation cfg) k = Some L /\
                 x = Some v).
Proof.
  intros Hnd H. unfold fresh_start_values in H.
  apply dict_comp_spec in H as [l [Hf ->]].
  assert (Hl : forall L x, In (L, x) l ->
            exists k v, PyDict.get (parDict st) k = Some v /\
                        PyDict.get (parLocation cfg) k = Some L /\ x = Some v).
  { intros L x Hin. destruct (Forall2_in_r _ _ _ _ Hf Hin) as [k [_ Hk]].
    apply fresh_pair_ok in Hk as [HL [v [Hv ->]]]. exists k, v. auto. }
  split.
  - intros k L v Hv HL. rewrite PyDictFacts.get_update.
    assert (Hk : In k (PyDict.keys (parDict st)))
      by (apply PyDictFacts.get_Some_keys; congruence).
    destruct (Forall2_in_l _ _ _ _ Hf Hk) as [[L' x] [Hin Hkx]].
    apply fresh_pair_ok in Hkx as [HL' [v' [Hv' ->]]].
    rewrite HL in HL'. injection HL' as <-. rewrite Hv in Hv'. injection Hv' as <-.
    rewrite (get_all_same (rev l) L (Some v)); [reflexivity|apply in_rev; rewrite rev_involutive; exact Hin|].
    intros y Hy. apply in_rev in Hy. destruct (Hl L y Hy) as [k2 [v2 [Hv2 [HL2 ->]]]].
    rewrite (values_inj (parLocation cfg) k2 k L Hnd (PyDictFacts.get_In _ _ _ HL2)
               (PyDictFacts.get_In _ _ _ HL)) in Hv2.
    congruence.
  - intros L x Hg. rewrite PyDictFacts.get_update in Hg.
    destruct (PyDict.get (rev l) L) as [y|] eqn:E; [|discriminate].
    injection Hg as <-. apply Hl. apply PyDictFacts.get_rev_In, E.
Qed.

(** X18: a fresh-mode [simu] that calls the FMU calls it over
    [[0, simulationTime]] with [start_values] equal to
    [{parLocation[k]: parDict[k] for k in parDict}]: each location of a
    stored parameter gets the stored value (the values [par()] and
    [init()] set are what the run starts from), and nothing else is
    passed (locations assumed distinct). *)
Theorem simu_fresh_start_values (cfg : config) (fmu : invocation -> option simres)
    (diagrams : list string) (T : Q) (mode : string) (st st' : session) (r : res unit)
    (inv : invocation) :
  NoDup (PyDict.values (parLocation cfg)) ->
  fresh_mode mode = true ->
  simu cfg fmu diagrams T mode st = (st', r) -> calls st' = inv :: calls st ->
  inv_start inv = 0%Q /\ inv_stop inv = T /\
  (forall k L v, PyDict.get (parDict st) k = Some v -> PyDict.get (parLocation cfg) k = Some L ->
     PyDict.get (inv_start_values inv) L = Some (Some v)) /\
  (forall L x, PyDict.get (inv_start_values inv) L = Some x ->
     exists k v, PyDict.get (parDict st) k = Some v /\ PyDict.get (parLocation cfg) k = Some L /\
                 x = Some v).
Proof.
  intros Hnd Hf H Hc. unfold simu in H. rewrite Hf in H.
  destruct (fresh_start_values cfg st) as [sv|e] eqn:Esv.
  - destruct (run_fmu_spec _ _ _ _ _ _ _ _ _ _ H) as [[Hc' _]|[inv' [Hc' [H0 [H1 [Hsv _]]]]]].
    + rewrite Hc in Hc'. exfalso. exact (cons_neq _ _ Hc').
    + rewrite Hc in Hc'. injection Hc' as <-. subst sv.
      split; [exact H0|split; [exact H1|]]. apply fresh_start_values_spec; assumption.
  - injection H as <- _. exfalso. exact (cons_neq _ _ (eq_sym Hc)).
Qed.

(** After [par(Y=0.6)], a fresh run passes [0.6] for the location of [Y]. *)
Lemma simu_fresh_start_values_witness :
  PyDict.get (inv_start_values (hd (Invocation 0 0 0 [] [])
     (calls (fst (simu batch_config demo_fmu batch_diagrams 10 "init"
                    (fst (par batch_config batch_session [("Y", 3#5)])))))))
     "bioreactor.culture.Y" = Some (Some (3#5)).
Proof.
  destruct (simu_fresh_start_values batch_config demo_fmu batch_diagrams 10 "init"
           (fst (par batch_config batch_session [("Y", 3#5)]))
           (fst (simu batch_config demo_fmu batch_diagrams 10 "init"
                   (fst (par batch_config batch_session [("Y", 3#5)]))))
           (snd (simu batch_config demo_fmu batch_diagrams 10 "init"
                   (fst (par batch_config batch_session [("Y", 3#5)]))))
           (hd (Invocation 0 0 0 [] [])
              (calls (fst (simu batch_config demo_fmu batch_diagrams 10 "init"
                             (fst (par batch_config batch_session [("Y", 3#5)])))))))
    as [_ [_ [H _]]].
  - vm_compute. repeat constructor; simpl; intros H; intuition discriminate.
  - reflexivity.
  - apply surjective_pairing.
  - vm_compute. reflexivity.
  - apply (H "Y"); vm_compute; reflexivity.
Defined.
